(** * muxprom: request instrumentation for a gorilla/mux router

    A shallow embedding of [prom.go] and the properties of its response
    observer ([statusWriter]), its middleware and its constructor.

    Conventions.
    - Go's [int] is taken as the 64-bit two's complement integer; values are
      in [Z] and the one arithmetic operation of the source ([length += n])
      wraps through [wrap_int].
    - The [http.ResponseWriter] a handler receives is an interface value: it
      is modelled as a method table [http.ResponseWriter S] over the state
      [S] of the object behind it, and handlers are polymorphic in [S].
    - The Prometheus collectors are process-wide state: they live in
      [World], keyed by their label values.  Observations are kept as the
      integers the source converts to [float64] (nanoseconds for
      [duration.Seconds()], bytes for [float64(sw.length)]). *)

From Stdlib Require Import ZArith List Lia QArith.
From Stdlib.Strings Require Import Byte Ascii.
From stdpp Require Import gmap strings list fin_maps pretty.

Open Scope Z_scope.

(** ** Go values *)

Definition bytes : Type := list byte.

(** Go's [len(b)] as an [int]. *)
Definition len (b : bytes) : Z := Z.of_nat (List.length b).

(** An [error] value, by its message. *)
Inductive error : Type :=
| errorString (msg : string).

(** [fmt.Errorf] with a format string that has no verbs. *)
Definition Errorf (msg : string) : error := errorString msg.

(** [int] arithmetic: the result of an operation reduced to 64 bits. *)
Definition wrap_int (z : Z) : Z := (z + 2 ^ 63) mod 2 ^ 64 - 2 ^ 63.

(** [fmt.Sprintf("%d", n)]. *)
Definition Sprintf_d (n : Z) : string := pretty n.

(** [utf8.ValidString]: the bytes of the string are well-formed UTF-8 (no
    overlong form, no surrogate, nothing above U+10FFFF).  [utf8_cont more
    lo hi] expects a continuation byte within [lo..hi] and then [more]
    continuation bytes within [0x80..0xBF]. *)
Inductive utf8_state : Type :=
| utf8_start
| utf8_cont (more : nat) (lo hi : N).

Fixpoint utf8_scan (st : utf8_state) (bs : list N) : bool :=
  match bs with
  | [] => match st with utf8_start => true | utf8_cont _ _ _ => false end
  | b :: bs =>
      match st with
      | utf8_start =>
          if (b <=? 0x7F)%N then utf8_scan utf8_start bs
          else if ((0xC2 <=? b) && (b <=? 0xDF))%N then utf8_scan (utf8_cont 0 0x80 0xBF) bs
          else if (b =? 0xE0)%N then utf8_scan (utf8_cont 1 0xA0 0xBF) bs
          else if (b =? 0xED)%N then utf8_scan (utf8_cont 1 0x80 0x9F) bs
          else if ((0xE1 <=? b) && (b <=? 0xEF))%N then utf8_scan (utf8_cont 1 0x80 0xBF) bs
          else if (b =? 0xF0)%N then utf8_scan (utf8_cont 2 0x90 0xBF) bs
          else if ((0xF1 <=? b) && (b <=? 0xF3))%N then utf8_scan (utf8_cont 2 0x80 0xBF) bs
          else if (b =? 0xF4)%N then utf8_scan (utf8_cont 2 0x80 0x8F) bs
          else false
      | utf8_cont more lo hi =>
          if ((lo <=? b) && (b <=? hi))%N
          then utf8_scan
                 (match more with O => utf8_start | S more => utf8_cont more 0x80 0xBF end) bs
          else false
      end
  end.

Definition utf8_ValidString (s : string) : bool :=
  utf8_scan utf8_start (List.map N_of_ascii (String.list_ascii_of_string s)).

(** ** net, bufio, net/http: the interfaces the source is written against *)

Inductive Conn : Type :=
| conn (fd : nat).

Inductive ReadWriter : Type :=
| readWriter (fd : nat).

(** The three results of [Hijack() (net.Conn, *bufio.ReadWriter, error)];
    [None] is [nil]. *)
Definition HijackResult : Type :=
  (option Conn * option ReadWriter * option error)%type.

Module http.

(** [http.ResponseWriter], with the optional [http.Hijacker] capability:
    [Hijacker = None] is a dynamic type on which the type assertion
    [w.(http.Hijacker)] fails. *)
Record ResponseWriter (S : Type) : Type := {
  SetHeader : string -> string -> S -> S;
  Write : bytes -> S -> (Z * option error) * S;
  WriteHeader : Z -> S -> S;
  Hijacker : option (S -> HijackResult * S)
}.
Arguments SetHeader {S} _ _ _ _.
Arguments Write {S} _ _ _.
Arguments WriteHeader {S} _ _ _.
Arguments Hijacker {S} _.

Definition StatusNotFound : Z := 404.
Definition StatusMethodNotAllowed : Z := 405.

Record URL : Type := {
  RequestURI : string
}.

(** [CurrentRoute] is the path template of the route gorilla/mux matched
    for the request ([mux.CurrentRoute(r).GetPathTemplate()]), [None] when
    no route matched. *)
Record Request : Type := {
  Method : string;
  url : URL;
  CurrentRoute : option string
}.

End http.

(** ** Process-wide state: registry, collectors and clock *)

Record Metrics : Type := {
  reqInFlight : gmap (string * string) Z;
  reqDurationHistogram : gmap (string * string * string) (list Z);
  reqRespSizeHistogram : gmap (string * string * string) (list Z)
}.

Record World : Type := {
  registry : gset string;
  metrics : Metrics;
  clock : Z
}.

(** [GaugeVec.WithLabelValues(..)]: the child of a label combination, at 0
    when it is first asked for. *)
Definition gauge_value (g : gmap (string * string) Z) (k : string * string) : Z :=
  default 0 (g !! k).

Definition gauge_Inc (k : string * string) (g : gmap (string * string) Z)
  : gmap (string * string) Z :=
  <[k := gauge_value g k + 1]> g.

Definition gauge_Dec (k : string * string) (g : gmap (string * string) Z)
  : gmap (string * string) Z :=
  <[k := gauge_value g k - 1]> g.

(** [HistogramVec.WithLabelValues(..)]: the observations of a label
    combination, oldest first. *)
Definition observations (h : gmap (string * string * string) (list Z))
    (k : string * string * string) : list Z :=
  default [] (h !! k).

Definition histogram_Observe (k : string * string * string) (v : Z)
    (h : gmap (string * string * string) (list Z))
  : gmap (string * string * string) (list Z) :=
  <[k := observations h k ++ [v]]> h.

Definition with_metrics (m : Metrics) (w : World) : World :=
  {| registry := registry w; metrics := m; clock := clock w |}.

Definition reqInFlight_Inc (route method : string) (w : World) : World :=
  with_metrics
    {| reqInFlight := gauge_Inc (route, method) (reqInFlight (metrics w));
       reqDurationHistogram := reqDurationHistogram (metrics w);
       reqRespSizeHistogram := reqRespSizeHistogram (metrics w) |} w.

Definition reqInFlight_Dec (route method : string) (w : World) : World :=
  with_metrics
    {| reqInFlight := gauge_Dec (route, method) (reqInFlight (metrics w));
       reqDurationHistogram := reqDurationHistogram (metrics w);
       reqRespSizeHistogram := reqRespSizeHistogram (metrics w) |} w.

Definition reqDurationHistogram_Observe (route method st : string) (v : Z)
    (w : World) : World :=
  with_metrics
    {| reqInFlight := reqInFlight (metrics w);
       reqDurationHistogram :=
         histogram_Observe (route, method, st) v (reqDurationHistogram (metrics w));
       reqRespSizeHistogram := reqRespSizeHistogram (metrics w) |} w.

Definition reqRespSizeHistogram_Observe (route method st : string) (v : Z)
    (w : World) : World :=
  with_metrics
    {| reqInFlight := reqInFlight (metrics w);
       reqDurationHistogram := reqDurationHistogram (metrics w);
       reqRespSizeHistogram :=
         histogram_Observe (route, method, st) v (reqRespSizeHistogram (metrics w)) |} w.

(** [WithLabelValues] of the Prometheus client panics on a label value that
    is not valid UTF-8.  The collectors above are the collectors on label
    values it accepts; [valid_labels r] says that the two label values the
    middleware takes from a request, its URI and its method, are such (the
    third, a status printed in decimal, always is). *)
Definition valid_labels (r : http.Request) : Prop :=
  utf8_ValidString (http.RequestURI (http.url r)) = true
  /\ utf8_ValidString (http.Method r) = true.

(** [time.Now()] and [time.Since(start)], in nanoseconds. *)
Definition Now (w : World) : Z := clock w.
Definition Since (start : Z) (w : World) : Z := clock w - start.

(** ** statusWriter: the response observer *)

Module statusWriter.

(** [ResponseWriter] is the embedded [http.ResponseWriter]: the state of
    the wrapped sink. *)
Record t (S : Type) : Type := {
  ResponseWriter : S;
  status : Z;
  length : Z
}.
Arguments ResponseWriter {S} _.
Arguments status {S} _.
Arguments length {S} _.

Section Methods.
Context {S : Type} (under : http.ResponseWriter S).

Definition WriteHeader (st : Z) (w : t S) : t S :=
  let w := {| ResponseWriter := ResponseWriter w; status := st; length := length w |} in
  {| ResponseWriter := http.WriteHeader under st (ResponseWriter w);
     status := status w; length := length w |}.

Definition Write (b : bytes) (w : t S) : (Z * option error) * t S :=
  let w :=
    if status w =? 0
    then {| ResponseWriter := ResponseWriter w; status := 200; length := length w |}
    else w in
  let '((n, err), s) := http.Write under b (ResponseWriter w) in
  let w := {| ResponseWriter := s; status := status w;
              length := wrap_int (length w + n) |} in
  ((n, err), w).

Definition Hijack (w : t S) : HijackResult * t S :=
  match http.Hijacker under with
  | None =>
      ((None, None, Some (Errorf "not supported by the underlying writer")), w)
  | Some writer_Hijack =>
      let '(res, s) := writer_Hijack (ResponseWriter w) in
      (res, {| ResponseWriter := s; status := status w; length := length w |})
  end.

(** [Header()] is promoted from the embedded writer. *)
Definition SetHeader (k v : string) (w : t S) : t S :=
  {| ResponseWriter := http.SetHeader under k v (ResponseWriter w);
     status := status w; length := length w |}.

(** [*statusWriter] as an [http.ResponseWriter]; it has a [Hijack]
    method, so the type assertion to [http.Hijacker] succeeds on it. *)
Definition methods : http.ResponseWriter (t S) := {|
  http.SetHeader := SetHeader;
  http.Write := Write;
  http.WriteHeader := WriteHeader;
  http.Hijacker := Some Hijack
|}.
End Methods.

End statusWriter.

(** ** Handlers *)

(** How a call ends: by returning or by a panic that unwinds the caller. *)
Inductive Exit : Type :=
| Returned
| Panicked.

(** [http.Handler]: [ServeHTTP(w, r)] for a writer [w] of any dynamic type,
    acting on the state of the writer and on the process-wide state. *)
Definition Handler : Type :=
  forall S : Type, http.ResponseWriter S -> http.Request -> S -> World -> Exit * S * World.

(** The body of a handler function, as the calls it makes on its writer
    argument; each continuation receives what the call returned.
    [w_Hijack] is the idiom [hj, ok := w.(http.Hijacker)] followed, when
    [ok], by [hj.Hijack()]. *)
Inductive body : Type :=
| ret
| panic
| w_Header_Set (k v : string) (rest : body)
| w_WriteHeader (st : Z) (rest : body)
| w_Write (b : bytes) (rest : Z -> option error -> body)
| w_Hijack (unsupported : body) (rest : HijackResult -> body)
| elapse (d : Z) (rest : body).

Definition tick (d : Z) (w : World) : World :=
  {| registry := registry w; metrics := metrics w; clock := clock w + d |}.

Fixpoint exec {S : Type} (w : http.ResponseWriter S) (c : body) (s : S) (world : World)
  : Exit * S * World :=
  match c with
  | ret => (Returned, s, world)
  | panic => (Panicked, s, world)
  | w_Header_Set k v rest => exec w rest (http.SetHeader w k v s) world
  | w_WriteHeader st rest => exec w rest (http.WriteHeader w st s) world
  | w_Write b rest =>
      let '((n, err), s) := http.Write w b s in
      exec w (rest n err) s world
  | w_Hijack unsupported rest =>
      match http.Hijacker w with
      | None => exec w unsupported s world
      | Some hijack =>
          let '(res, s) := hijack s in
          exec w (rest res) s world
      end
  | elapse d rest => exec w rest s (tick d world)
  end.

(** [http.HandlerFunc(f)]. *)
Definition HandlerFunc (f : http.Request -> body) : Handler :=
  fun S w r s world => exec w (f r) s world.

(** [http.NotFoundHandler()]: [http.Error(w, "404 page not found", 404)],
    which sets two headers, the status and writes the message with a
    newline (later Go releases also delete some headers before that). *)
Definition http_NotFoundHandler : Handler :=
  HandlerFunc (fun _ =>
    w_Header_Set "Content-Type" "text/plain; charset=utf-8"
      (w_Header_Set "X-Content-Type-Options" "nosniff"
        (w_WriteHeader http.StatusNotFound
          (w_Write (String.list_byte_of_string ("404 page not found" ++ String "010"%char ""))
             (fun _ _ => ret))))).

(** ** The middleware *)

(** [(prom *MuxProm) middleware]; the collectors of the receiver are the
    [metrics] of the [World]. *)
Definition middleware (next : Handler) : Handler :=
  fun S w r s world =>
    let routeName := http.RequestURI (http.url r) in
    let world := reqInFlight_Inc routeName (http.Method r) world in
    let start := Now world in
    let sw := {| statusWriter.ResponseWriter := s;
                 statusWriter.status := 0; statusWriter.length := 0 |} in
    match next (statusWriter.t S) (statusWriter.methods w) r sw world with
    | (Panicked, sw, world) => (Panicked, statusWriter.ResponseWriter sw, world)
    | (Returned, sw, world) =>
        let duration := Since start world in
        let world :=
          reqDurationHistogram_Observe routeName (http.Method r)
            (Sprintf_d (statusWriter.status sw)) duration world in
        let world :=
          reqRespSizeHistogram_Observe routeName (http.Method r)
            (Sprintf_d (statusWriter.status sw)) (statusWriter.length sw) world in
        let world := reqInFlight_Dec routeName (http.Method r) world in
        (Returned, statusWriter.ResponseWriter sw, world)
    end.

(** ** gorilla/mux: the part of the router the source touches *)

Module mux.

Definition MiddlewareFunc : Type := Handler -> Handler.

(** What a route serves: [promhttp.Handler()], whose exposition format is
    not modelled, or a handler of the application. *)
Inductive RouteHandler : Type :=
| promhttp_Handler
| appHandler (h : Handler).

Record Route : Type := {
  name : string;
  methods : list string;
  path : string;
  handler : RouteHandler
}.

Record Router : Type := {
  routes : list Route;
  middlewares : list MiddlewareFunc;
  NotFoundHandler : option Handler;
  MethodNotAllowedHandler : option Handler
}.

Definition NewRouter : Router :=
  {| routes := []; middlewares := [];
     NotFoundHandler := None; MethodNotAllowedHandler := None |}.

(** [r.Name(n).Methods(ms...).Path(p).Handler(h)]. *)
Definition Handle (n : string) (ms : list string) (p : string) (h : RouteHandler)
    (r : Router) : Router :=
  {| routes := routes r ++ [{| name := n; methods := ms; path := p; handler := h |}];
     middlewares := middlewares r;
     NotFoundHandler := NotFoundHandler r;
     MethodNotAllowedHandler := MethodNotAllowedHandler r |}.

(** [r.Use(mw)]. *)
Definition Use (mw : MiddlewareFunc) (r : Router) : Router :=
  {| routes := routes r;
     middlewares := middlewares r ++ [mw];
     NotFoundHandler := NotFoundHandler r;
     MethodNotAllowedHandler := MethodNotAllowedHandler r |}.

End mux.

Definition WrapNotFoundHandler (h : option Handler) (m : mux.MiddlewareFunc) : Handler :=
  let h := match h with None => http_NotFoundHandler | Some h => h end in
  m h.

Definition WrapMethodNotAllowedHandler (h : option Handler) (m : mux.MiddlewareFunc)
  : Handler :=
  let h :=
    match h with
    | None => HandlerFunc (fun req => w_WriteHeader http.StatusMethodNotAllowed ret)
    | Some h => h
    end in
  m h.

(** ** MuxProm: configuration, construction, instrumentation *)

Definition defaultMetricsPath : string := "/metrics".
Definition defaultMetricsRouteName : string := "metrics".
Definition defaultNamespace : string := "muxprom".

(** [bytefmt.KILOBYTE] and [bytefmt.MEGABYTE]. *)
Definition bytefmt_KILOBYTE : Q := 1024%Q.
Definition bytefmt_MEGABYTE : Q := 1048576%Q.

(** Bucket boundaries are kept as the rationals their literals denote. *)
Definition defaultDurationBucket : list Q :=
  [0.0001; 0.0005; 0.001; 0.005; 0.01; 0.025; 0.05; 0.1; 0.25; 0.5; 1; 2.5; 5; 10]%Q.

Definition defaultRespSizeBucket : list Q :=
  [0; 512; bytefmt_KILOBYTE; 100 * bytefmt_KILOBYTE; 512 * bytefmt_KILOBYTE;
   bytefmt_MEGABYTE; 5 * bytefmt_MEGABYTE; 10 * bytefmt_MEGABYTE;
   25 * bytefmt_MEGABYTE; 50 * bytefmt_MEGABYTE; 100 * bytefmt_MEGABYTE;
   500 * bytefmt_MEGABYTE]%Q.

(** [prometheus.BuildFQName(namespace, "", name)]. *)
Definition BuildFQName (namespace name : string) : string :=
  if decide (namespace = "") then name else namespace ++ "_" ++ name.

(** [prometheus.MustRegister(c)]: panics when a collector of that name is
    registered already. *)
Definition MustRegister (fqName : string) (w : World) : Exit * World :=
  if decide (fqName ∈ registry w) then (Panicked, w)
  else (Returned,
        {| registry := {[fqName]} ∪ registry w; metrics := metrics w; clock := clock w |}).

Module MuxProm.

(** The fields [reqInFlight], [reqDurationHistogram] and
    [reqRespSizeHistogram] are the [metrics] of the [World]; [Router] is
    the router the pointer leads to, [None] for [nil]. *)
Record t : Type := {
  Router : option mux.Router;
  Namespace : string;
  MetricsPath : string;
  MetricsRouteName : string;
  DurationBucket : list Q;
  RespSizeBucket : list Q
}.

Definition with_Router (r : option mux.Router) (prom : t) : t :=
  {| Router := r; Namespace := Namespace prom; MetricsPath := MetricsPath prom;
     MetricsRouteName := MetricsRouteName prom;
     DurationBucket := DurationBucket prom; RespSizeBucket := RespSizeBucket prom |}.

Definition init (prom : t) (w : World) : Exit * World :=
  let w :=
    with_metrics
      {| reqInFlight := ∅;
         reqDurationHistogram := reqDurationHistogram (metrics w);
         reqRespSizeHistogram := reqRespSizeHistogram (metrics w) |} w in
  match MustRegister (BuildFQName (Namespace prom) "http_requests_inflight") w with
  | (Panicked, w) => (Panicked, w)
  | (Returned, w) =>
  let w :=
    with_metrics
      {| reqInFlight := reqInFlight (metrics w);
         reqDurationHistogram := ∅;
         reqRespSizeHistogram := reqRespSizeHistogram (metrics w) |} w in
  match MustRegister (BuildFQName (Namespace prom) "http_request_duration_seconds") w with
  | (Panicked, w) => (Panicked, w)
  | (Returned, w) =>
  let w :=
    with_metrics
      {| reqInFlight := reqInFlight (metrics w);
         reqDurationHistogram := reqDurationHistogram (metrics w);
         reqRespSizeHistogram := ∅ |} w in
  MustRegister (BuildFQName (Namespace prom) "http_response_size") w
  end end.

(** The composite literal [New] starts from. *)
Definition defaults : t :=
  {| Router := None;
     Namespace := defaultNamespace;
     MetricsPath := defaultMetricsPath;
     MetricsRouteName := defaultMetricsRouteName;
     DurationBucket := defaultDurationBucket;
     RespSizeBucket := defaultRespSizeBucket |}.

(** How [New] ends: with the instance, in [log.Fatal] (the message is
    logged and the process exits), or in a panic. *)
Inductive NewResult : Type :=
| NewReturned (p : t) (w : World)
| NewFatal (msg : string) (w : World)
| NewPanicked (w : World).

Definition New (options : list (t -> t)) (w : World) : NewResult :=
  let p := defaults in
  let p := fold_left (fun p option => option p) options p in
  match init p w with
  | (Panicked, w) => NewPanicked w
  | (Returned, w) =>
      match Router p with
      | Some r =>
          let r := mux.Handle (MetricsRouteName p) ["GET"%string] (MetricsPath p)
                     mux.promhttp_Handler r in
          NewReturned (with_Router (Some r) p) w
      | None => NewFatal "You need to set Router" w
      end
  end.

(** [Instrument] dereferences [prom.Router]: [None] is the nil-pointer
    panic. *)
Definition Instrument (prom : t) : option t :=
  match Router prom with
  | None => None
  | Some r =>
      let r := mux.Use middleware r in
      let r :=
        {| mux.routes := mux.routes r;
           mux.middlewares := mux.middlewares r;
           mux.NotFoundHandler :=
             Some (WrapNotFoundHandler (mux.NotFoundHandler r) middleware);
           mux.MethodNotAllowedHandler := mux.MethodNotAllowedHandler r |} in
      let r :=
        {| mux.routes := mux.routes r;
           mux.middlewares := mux.middlewares r;
           mux.NotFoundHandler := mux.NotFoundHandler r;
           mux.MethodNotAllowedHandler :=
             Some (WrapMethodNotAllowedHandler (mux.MethodNotAllowedHandler r) middleware) |} in
      Some (with_Router (Some r) prom)
  end.

End MuxProm.

(** The functional options. *)
Definition Namespace (ns : string) : MuxProm.t -> MuxProm.t :=
  fun prom =>
    {| MuxProm.Router := MuxProm.Router prom; MuxProm.Namespace := ns;
       MuxProm.MetricsPath := MuxProm.MetricsPath prom;
       MuxProm.MetricsRouteName := MuxProm.MetricsRouteName prom;
       MuxProm.DurationBucket := MuxProm.DurationBucket prom;
       MuxProm.RespSizeBucket := MuxProm.RespSizeBucket prom |}.

Definition MetricsPath (p : string) : MuxProm.t -> MuxProm.t :=
  fun prom =>
    {| MuxProm.Router := MuxProm.Router prom; MuxProm.Namespace := MuxProm.Namespace prom;
       MuxProm.MetricsPath := p;
       MuxProm.MetricsRouteName := MuxProm.MetricsRouteName prom;
       MuxProm.DurationBucket := MuxProm.DurationBucket prom;
       MuxProm.RespSizeBucket := MuxProm.RespSizeBucket prom |}.

Definition MetricsRouteName (rn : string) : MuxProm.t -> MuxProm.t :=
  fun prom =>
    {| MuxProm.Router := MuxProm.Router prom; MuxProm.Namespace := MuxProm.Namespace prom;
       MuxProm.MetricsPath := MuxProm.MetricsPath prom;
       MuxProm.MetricsRouteName := rn;
       MuxProm.DurationBucket := MuxProm.DurationBucket prom;
       MuxProm.RespSizeBucket := MuxProm.RespSizeBucket prom |}.

Definition DurationBucket (db : list Q) : MuxProm.t -> MuxProm.t :=
  fun prom =>
    {| MuxProm.Router := MuxProm.Router prom; MuxProm.Namespace := MuxProm.Namespace prom;
       MuxProm.MetricsPath := MuxProm.MetricsPath prom;
       MuxProm.MetricsRouteName := MuxProm.MetricsRouteName prom;
       MuxProm.DurationBucket := db;
       MuxProm.RespSizeBucket := MuxProm.RespSizeBucket prom |}.

Definition RespSizeBucket (rsb : list Q) : MuxProm.t -> MuxProm.t :=
  fun prom =>
    {| MuxProm.Router := MuxProm.Router prom; MuxProm.Namespace := MuxProm.Namespace prom;
       MuxProm.MetricsPath := MuxProm.MetricsPath prom;
       MuxProm.MetricsRouteName := MuxProm.MetricsRouteName prom;
       MuxProm.DurationBucket := MuxProm.DurationBucket prom;
       MuxProm.RespSizeBucket := rsb |}.

Definition Router (r : option mux.Router) : MuxProm.t -> MuxProm.t :=
  fun prom => MuxProm.with_Router r prom.

(** ** Properties of handler bodies *)

(** The body never calls [w.WriteHeader]. *)
Fixpoint never_WriteHeader (c : body) : Prop :=
  match c with
  | ret | panic => True
  | w_Header_Set _ _ rest | elapse _ rest => never_WriteHeader rest
  | w_WriteHeader _ _ => False
  | w_Write _ rest => forall n err, never_WriteHeader (rest n err)
  | w_Hijack unsupported rest =>
      never_WriteHeader unsupported /\ forall res, never_WriteHeader (rest res)
  end.

(** The body never calls [w.Write]. *)
Fixpoint never_Write (c : body) : Prop :=
  match c with
  | ret | panic => True
  | w_Header_Set _ _ rest | elapse _ rest | w_WriteHeader _ rest => never_Write rest
  | w_Write _ _ => False
  | w_Hijack unsupported rest =>
      never_Write unsupported /\ forall res, never_Write (rest res)
  end.

(** Every run of the body that reaches its end has called [w.Write]. *)
Fixpoint writes_body (c : body) : Prop :=
  match c with
  | ret => False
  | panic => True
  | w_Header_Set _ _ rest | elapse _ rest | w_WriteHeader _ rest => writes_body rest
  | w_Write _ _ => True
  | w_Hijack unsupported rest =>
      writes_body unsupported /\ forall res, writes_body (rest res)
  end.

(** A handler that sets one status after the other and returns. *)
Definition set_statuses (sts : list Z) : body := fold_right w_WriteHeader ret sts.

(** A handler that writes one byte sequence after the other, whatever the
    writes return, and returns. *)
Definition write_each (bs : list bytes) : body :=
  fold_right (fun b rest => w_Write b (fun _ _ => rest)) ret bs.

(** A sequence of [Write] calls on a writer: what each returned, and the
    writer afterwards. *)
Fixpoint Write_all {S : Type} (w : http.ResponseWriter S) (bs : list bytes) (s : S)
  : list (Z * option error) * S :=
  match bs with
  | [] => ([], s)
  | b :: bs =>
      let '(res, s) := http.Write w b s in
      let '(rs, s) := Write_all w bs s in
      (res :: rs, s)
  end.

Definition sum_written (rs : list (Z * option error)) : Z :=
  fold_right (fun res acc => fst res + acc) 0 rs.

(** The Route Label in the words of the specification: the path template of
    the matched route, the request URI when no route matched. *)
Definition spec_RouteLabel (r : http.Request) : string :=
  match http.CurrentRoute r with
  | Some template => template
  | None => http.RequestURI (http.url r)
  end.

(** ** Writers to run the code against *)

Module httptest.

(** [httptest.ResponseRecorder]: keeps the first status and the body; it is
    no [http.Hijacker]. *)
Record ResponseRecorder : Type := {
  Code : Z;
  HeaderMap : list (string * string);
  Body : bytes;
  wroteHeader : bool
}.

Definition NewRecorder : ResponseRecorder :=
  {| Code := 200; HeaderMap := []; Body := []; wroteHeader := false |}.

Definition WriteHeader (code : Z) (rw : ResponseRecorder) : ResponseRecorder :=
  if wroteHeader rw then rw
  else {| Code := code; HeaderMap := HeaderMap rw; Body := Body rw; wroteHeader := true |}.

Definition Write (buf : bytes) (rw : ResponseRecorder)
  : (Z * option error) * ResponseRecorder :=
  let rw := WriteHeader 200 rw in
  ((len buf, None),
   {| Code := Code rw; HeaderMap := HeaderMap rw; Body := Body rw ++ buf;
      wroteHeader := wroteHeader rw |}).

Definition SetHeader (k v : string) (rw : ResponseRecorder) : ResponseRecorder :=
  {| Code := Code rw; HeaderMap := (k, v) :: HeaderMap rw; Body := Body rw;
     wroteHeader := wroteHeader rw |}.

Definition methods : http.ResponseWriter ResponseRecorder := {|
  http.SetHeader := SetHeader;
  http.Write := Write;
  http.WriteHeader := WriteHeader;
  http.Hijacker := None
|}.

End httptest.

(** A connection that takes [room] more bytes and then breaks; it can be
    hijacked. *)
Module conn_writer.

Record t : Type := {
  room : nat;
  sent : bytes;
  hijacked : bool
}.

Definition Write (b : bytes) (c : t) : (Z * option error) * t :=
  if (List.length b <=? room c)%nat
  then ((len b, None),
        {| room := room c - List.length b; sent := sent c ++ b; hijacked := hijacked c |})
  else ((Z.of_nat (room c), Some (errorString "write: broken pipe")),
        {| room := 0; sent := sent c ++ firstn (room c) b; hijacked := hijacked c |}).

Definition Hijack (c : t) : HijackResult * t :=
  ((Some (conn 3), Some (readWriter 3), None),
   {| room := room c; sent := sent c; hijacked := true |}).

Definition methods : http.ResponseWriter t := {|
  http.SetHeader := fun _ _ c => c;
  http.Write := Write;
  http.WriteHeader := fun _ c => c;
  http.Hijacker := Some Hijack
|}.

End conn_writer.

Definition no_metrics : Metrics :=
  {| reqInFlight := ∅; reqDurationHistogram := ∅; reqRespSizeHistogram := ∅ |}.

(** A process at start: nothing registered, nothing observed. *)
Definition world0 : World :=
  {| registry := ∅; metrics := no_metrics; clock := 0 |}.

Definition get (uri : string) (route : option string) : http.Request :=
  {| http.Method := "GET"; http.url := {| http.RequestURI := uri |};
     http.CurrentRoute := route |}.

(** Exactly one observation went into each histogram between [world] and
    [world'], both under the labels [(route, method, st)]: the elapsed time
    in the one, [size] in the other. *)
Definition recorded (world world' : World) (route method st : string) (size : Z) : Prop :=
  reqDurationHistogram (metrics world') =
    histogram_Observe (route, method, st) (clock world' - clock world)
      (reqDurationHistogram (metrics world))
  /\ reqRespSizeHistogram (metrics world') =
    histogram_Observe (route, method, st) size (reqRespSizeHistogram (metrics world)).

(** * Lemmas *)

(** ** [int] arithmetic *)

Lemma wrap_int_small (z : Z) : - 2 ^ 63 <= z < 2 ^ 63 -> wrap_int z = z.
Proof.
  intros Hz. unfold wrap_int.
  rewrite Z.mod_small by lia. lia.
Qed.

Lemma wrap_int_add_l (x y : Z) : wrap_int (wrap_int x + y) = wrap_int (x + y).
Proof.
  unfold wrap_int.
  replace ((x + 2 ^ 63) mod 2 ^ 64 - 2 ^ 63 + y + 2 ^ 63)
    with ((x + 2 ^ 63) mod 2 ^ 64 + y) by lia.
  rewrite Zplus_mod_idemp_l.
  do 2 f_equal. lia.
Qed.

Lemma wrap_int_idem (x : Z) : wrap_int (wrap_int x) = wrap_int x.
Proof.
  transitivity (wrap_int (wrap_int x + 0)); [ f_equal; lia | ].
  rewrite wrap_int_add_l. f_equal. lia.
Qed.

Lemma Sprintf_d_200 : Sprintf_d 200 = "200"%string.
Proof. reflexivity. Qed.

Lemma Sprintf_d_0 : Sprintf_d 0 = "0"%string.
Proof. reflexivity. Qed.

(** ** The collectors *)

Lemma gauge_value_Inc_eq g k : gauge_value (gauge_Inc k g) k = gauge_value g k + 1.
Proof. unfold gauge_Inc, gauge_value at 1. by rewrite lookup_insert_eq. Qed.

Lemma gauge_value_Inc_ne g k k' :
  k <> k' -> gauge_value (gauge_Inc k g) k' = gauge_value g k'.
Proof. intros Hk. unfold gauge_Inc, gauge_value at 1. by rewrite lookup_insert_ne. Qed.

Lemma gauge_value_Dec_eq g k : gauge_value (gauge_Dec k g) k = gauge_value g k - 1.
Proof. unfold gauge_Dec, gauge_value at 1. by rewrite lookup_insert_eq. Qed.

Lemma gauge_value_Dec_ne g k k' :
  k <> k' -> gauge_value (gauge_Dec k g) k' = gauge_value g k'.
Proof. intros Hk. unfold gauge_Dec, gauge_value at 1. by rewrite lookup_insert_ne. Qed.

(** An increment followed by the decrement of the same child leaves every
    child at its value. *)
Lemma gauge_value_Dec_Inc g k k' :
  gauge_value (gauge_Dec k (gauge_Inc k g)) k' = gauge_value g k'.
Proof.
  destruct (decide (k = k')) as [<- | Hne].
  - rewrite gauge_value_Dec_eq, gauge_value_Inc_eq. lia.
  - by rewrite gauge_value_Dec_ne, gauge_value_Inc_ne.
Qed.

Lemma observations_Observe_eq h k v :
  observations (histogram_Observe k v h) k = observations h k ++ [v].
Proof. unfold histogram_Observe, observations at 1. by rewrite lookup_insert_eq. Qed.

Lemma observations_Observe_ne h k k' v :
  k <> k' -> observations (histogram_Observe k v h) k' = observations h k'.
Proof.
  intros Hk. unfold histogram_Observe, observations at 1. by rewrite lookup_insert_ne.
Qed.

(** ** Handler bodies touch the writer and the clock only *)

Lemma exec_metrics {S : Type} (w : http.ResponseWriter S) (c : body) :
  forall s world, metrics (exec w c s world).2 = metrics world.
Proof.
  induction c as [ | | k v rest IH | st rest IH | b rest IH
                 | unsupported IHu rest IH | d rest IH ]; intros s world; simpl; auto.
  - destruct (http.Write w b s) as [[n err] s']. apply IH.
  - destruct (http.Hijacker w) as [hijack | ]; [ | apply IHu ].
    destruct (hijack s) as [res s']. apply IH.
  - by rewrite IH.
Qed.

Lemma exec_registry {S : Type} (w : http.ResponseWriter S) (c : body) :
  forall s world, registry (exec w c s world).2 = registry world.
Proof.
  induction c as [ | | k v rest IH | st rest IH | b rest IH
                 | unsupported IHu rest IH | d rest IH ]; intros s world; simpl; auto.
  - destruct (http.Write w b s) as [[n err] s']. apply IH.
  - destruct (http.Hijacker w) as [hijack | ]; [ | apply IHu ].
    destruct (hijack s) as [res s']. apply IH.
  - by rewrite IH.
Qed.

Lemma last_cons_default {A : Type} (l : list A) (x a b : A) :
  List.last (x :: l) a = List.last (x :: l) b.
Proof.
  revert x. induction l as [ | y l IH ]; intros x; [ reflexivity | ].
  change (List.last (y :: l) a = List.last (y :: l) b). apply IH.
Qed.

(** ** The observer under a handler body *)

Section Observer.
Context {S : Type} (under : http.ResponseWriter S).

Local Abbreviation observed := (statusWriter.methods under).

(** Without a [WriteHeader] call, a status of 200 stays. *)
Lemma exec_keeps_200 (c : body) :
  forall sw world,
    never_WriteHeader c ->
    statusWriter.status sw = 200 ->
    statusWriter.status (exec observed c sw world).1.2 = 200.
Proof.
  induction c as [ | | k v rest IH | st rest IH | b rest IH
                 | unsupported IHu rest IH | d rest IH ];
    intros sw world Hnever Hst; simpl in *; auto.
  - contradiction.
  - unfold statusWriter.Write. rewrite Hst. simpl.
    destruct (http.Write under b (statusWriter.ResponseWriter sw)) as [[n err] s'].
    apply IH; auto.
  - destruct Hnever as [_ Hrest]. unfold statusWriter.Hijack.
    destruct (http.Hijacker under) as [hijack | ]; [ | apply IH; auto ].
    destruct (hijack (statusWriter.ResponseWriter sw)) as [res s'].
    apply IH; auto.
Qed.

(** Without a [WriteHeader] call, a body that writes and returns leaves
    the status at 200. *)
Lemma exec_defaults_200 (c : body) :
  forall sw world,
    never_WriteHeader c -> writes_body c ->
    statusWriter.status sw = 0 ->
    (exec observed c sw world).1.1 = Returned ->
    statusWriter.status (exec observed c sw world).1.2 = 200.
Proof.
  induction c as [ | | k v rest IH | st rest IH | b rest IH
                 | unsupported IHu rest IH | d rest IH ];
    intros sw world Hnever Hwrites Hst Hret; simpl in *; auto; try contradiction.
  - discriminate.
  - unfold statusWriter.Write in *. rewrite Hst in *. simpl in *.
    destruct (http.Write under b (statusWriter.ResponseWriter sw)) as [[n err] s'].
    apply exec_keeps_200; auto.
  - destruct Hnever as [_ Hrest]. destruct Hwrites as [_ Hw].
    unfold statusWriter.Hijack in *.
    destruct (http.Hijacker under) as [hijack | ]; [ | apply IH; auto ].
    destruct (hijack (statusWriter.ResponseWriter sw)) as [res s'].
    apply IH; auto.
Qed.

(** Without a [WriteHeader] and without a [Write] call, status and length
    stay what they were. *)
Lemma exec_untouched (c : body) :
  forall sw world,
    never_WriteHeader c -> never_Write c ->
    statusWriter.status (exec observed c sw world).1.2 = statusWriter.status sw
    /\ statusWriter.length (exec observed c sw world).1.2 = statusWriter.length sw.
Proof.
  induction c as [ | | k v rest IH | st rest IH | b rest IH
                 | unsupported IHu rest IH | d rest IH ];
    intros sw world Hnh Hnw; simpl in *; auto; try contradiction.
  - apply (IH (statusWriter.SetHeader under k v sw)); auto.
  - destruct Hnh as [_ Hh]. destruct Hnw as [_ Hw].
    unfold statusWriter.Hijack.
    destruct (http.Hijacker under) as [hijack | ].
    + destruct (hijack (statusWriter.ResponseWriter sw)) as [res s'].
      apply (IH res {| statusWriter.ResponseWriter := s';
                       statusWriter.status := statusWriter.status sw;
                       statusWriter.length := statusWriter.length sw |}); auto.
    + apply (IH (None, None, Some (Errorf "not supported by the underlying writer")) sw);
        auto.
Qed.

(** The last status of a run of [WriteHeader] calls is the one kept. *)
Lemma exec_set_statuses (sts : list Z) :
  forall sw world,
    exec observed (set_statuses sts) sw world =
      (Returned,
       {| statusWriter.ResponseWriter :=
            (exec under (set_statuses sts) (statusWriter.ResponseWriter sw) world).1.2;
          statusWriter.status := List.last sts (statusWriter.status sw);
          statusWriter.length := statusWriter.length sw |},
       world).
Proof.
  induction sts as [ | st sts IH ]; intros sw world.
  - destruct sw; reflexivity.
  - change (set_statuses (st :: sts)) with (w_WriteHeader st (set_statuses sts)).
    cbn [exec]. rewrite IH. simpl.
    repeat f_equal.
    destruct sts as [ | st' sts ]; [ reflexivity | apply last_cons_default ].
Qed.

(** Writes through the observer reach the sink as they are, return what the
    sink returned, and add up in [length]. *)
Lemma Write_all_observed (bs : list bytes) :
  forall sw,
    (Write_all observed bs sw).1 = (Write_all under bs (statusWriter.ResponseWriter sw)).1
    /\ statusWriter.ResponseWriter (Write_all observed bs sw).2 =
         (Write_all under bs (statusWriter.ResponseWriter sw)).2
    /\ wrap_int (statusWriter.length (Write_all observed bs sw).2) =
         wrap_int (statusWriter.length sw
                   + sum_written (Write_all under bs (statusWriter.ResponseWriter sw)).1).
Proof.
  induction bs as [ | b bs IH ]; intros sw.
  - simpl. repeat split. f_equal. lia.
  - simpl. unfold statusWriter.Write.
    set (sw1 := if statusWriter.status sw =? 0 then _ else sw).
    assert (Hrw : statusWriter.ResponseWriter sw1 = statusWriter.ResponseWriter sw)
      by (subst sw1; destruct (statusWriter.status sw =? 0); reflexivity).
    assert (Hlen : statusWriter.length sw1 = statusWriter.length sw)
      by (subst sw1; destruct (statusWriter.status sw =? 0); reflexivity).
    rewrite Hrw, Hlen.
    destruct (http.Write under b (statusWriter.ResponseWriter sw)) as [[n err] s'].
    match goal with |- context [Write_all observed bs ?x] => specialize (IH x) end.
    simpl in IH.
    destruct (Write_all observed bs _) as [rs sw'].
    destruct (Write_all under bs s') as [rs0 s0].
    simpl in *. destruct IH as (-> & -> & IH).
    repeat split. rewrite IH.
    rewrite wrap_int_add_l. f_equal. unfold sum_written. simpl. lia.
Qed.

(** After at least one write the length is a wrapped value already. *)
Lemma Write_all_length_wrapped (bs : list bytes) :
  forall sw,
    wrap_int (statusWriter.length sw) = statusWriter.length sw ->
    wrap_int (statusWriter.length (Write_all observed bs sw).2) =
      statusWriter.length (Write_all observed bs sw).2.
Proof.
  induction bs as [ | b bs IH ]; intros sw Hsw; simpl; auto.
  unfold statusWriter.Write.
  destruct (http.Write under b _) as [[n err] s'].
  match goal with |- context [Write_all observed bs ?x] => specialize (IH x) end.
  destruct (Write_all observed bs _) as [rs sw']. simpl in *.
  apply IH. simpl. apply wrap_int_idem.
Qed.

(** A handler that writes one sequence after the other makes exactly the
    calls of [Write_all]. *)
Lemma exec_write_each {T : Type} (w : http.ResponseWriter T) (bs : list bytes) :
  forall s world,
    exec w (write_each bs) s world = (Returned, (Write_all w bs s).2, world).
Proof.
  induction bs as [ | b bs IH ]; intros s world; simpl; auto.
  destruct (http.Write w b s) as [[n err] s'].
  rewrite IH. by destruct (Write_all w bs s').
Qed.

End Observer.


(** ** The middleware around a handler function *)

Section Middleware.
Context {S : Type} (under : http.ResponseWriter S).
Context (f : http.Request -> body) (r : http.Request) (s : S) (world : World).

Local Abbreviation uri := (http.RequestURI (http.url r)).
Local Abbreviation verb := (http.Method r).
Local Abbreviation fresh :=
  {| statusWriter.ResponseWriter := s; statusWriter.status := 0; statusWriter.length := 0 |}.
Local Abbreviation inner :=
  (exec (statusWriter.methods under) (f r) fresh (reqInFlight_Inc uri verb world)).

(** The handler returned: both histograms got their observation under the
    status the observer holds, and the gauge was stepped up and down. *)
Lemma middleware_returned (s' : S) (world' : World) :
  middleware (HandlerFunc f) S under r s world = (Returned, s', world') ->
  inner.1.1 = Returned
  /\ s' = statusWriter.ResponseWriter inner.1.2
  /\ recorded world world' uri verb
       (Sprintf_d (statusWriter.status inner.1.2)) (statusWriter.length inner.1.2)
  /\ reqInFlight (metrics world') =
       gauge_Dec (uri, verb) (gauge_Inc (uri, verb) (reqInFlight (metrics world))).
Proof.
  unfold middleware, HandlerFunc.
  pose proof (exec_metrics (statusWriter.methods under) (f r) fresh
                (reqInFlight_Inc uri verb world)) as Hm.
  destruct inner as [[e sw] world1]. simpl in Hm |- *.
  destruct e; intros [= <- <-].
  unfold recorded. simpl. rewrite Hm. simpl. unfold Since, Now. simpl. auto.
Qed.

(** The handler panicked: the panic leaves the middleware after the
    increment, before anything else. *)
Lemma middleware_panicked (s' : S) (world' : World) :
  middleware (HandlerFunc f) S under r s world = (Panicked, s', world') ->
  inner.1.1 = Panicked
  /\ reqInFlight (metrics world') = gauge_Inc (uri, verb) (reqInFlight (metrics world))
  /\ reqDurationHistogram (metrics world') = reqDurationHistogram (metrics world)
  /\ reqRespSizeHistogram (metrics world') = reqRespSizeHistogram (metrics world).
Proof.
  unfold middleware, HandlerFunc.
  pose proof (exec_metrics (statusWriter.methods under) (f r) fresh
                (reqInFlight_Inc uri verb world)) as Hm.
  destruct inner as [[e sw] world1]. simpl in Hm |- *.
  destruct e; intros [= <- <-].
  rewrite Hm. simpl. auto.
Qed.

(** When the handler returns, every child of the in-flight gauge is back at
    the value it had. *)
Lemma middleware_returned_gauge (s' : S) (world' : World) (k : string * string) :
  middleware (HandlerFunc f) S under r s world = (Returned, s', world') ->
  gauge_value (reqInFlight (metrics world')) k = gauge_value (reqInFlight (metrics world)) k.
Proof.
  intros H. apply middleware_returned in H as (_ & _ & _ & ->).
  apply gauge_value_Dec_Inc.
Qed.

End Middleware.

(** * The claims *)

(** C1, as amended.  For every request the middleware serves whose URI and
    method are label values the collectors accept (valid UTF-8), the route
    label of all three collectors is the request URI
    ([r.URL.RequestURI()]), whether or not a route matched: when the handler
    returns, each histogram has its observation under that label and the
    gauge child of that label was incremented and decremented; when it
    panics, the gauge child of that label was incremented. *)
Theorem C1_route_label_is_request_uri :
  forall (S : Type) (under : http.ResponseWriter S) (f : http.Request -> body)
         (r : http.Request) (s : S) (world : World),
    valid_labels r ->
    let uri := http.RequestURI (http.url r) in
    let res := middleware (HandlerFunc f) S under r s world in
    match res.1.1 with
    | Returned =>
        (exists st size, recorded world res.2 uri (http.Method r) st size)
        /\ reqInFlight (metrics res.2) =
             gauge_Dec (uri, http.Method r)
               (gauge_Inc (uri, http.Method r) (reqInFlight (metrics world)))
    | Panicked =>
        reqInFlight (metrics res.2) =
          gauge_Inc (uri, http.Method r) (reqInFlight (metrics world))
        /\ reqDurationHistogram (metrics res.2) = reqDurationHistogram (metrics world)
        /\ reqRespSizeHistogram (metrics res.2) = reqRespSizeHistogram (metrics world)
    end.
Proof.
  intros S under f r s world Hvalid uri res.
  destruct res as [[e s'] world'] eqn:Hres. subst res uri. simpl.
  destruct e.
  - apply middleware_returned in Hres as (_ & _ & Hrec & Hgauge).
    split; [ eauto | exact Hgauge ].
  - apply middleware_panicked in Hres as (_ & Hgauge & Hd & Hs). auto.
Qed.

Lemma C1_witness_matched_route :
  let r := get "/users/42" (Some "/users/{id}"%string) in
  let world' :=
    (middleware (HandlerFunc (fun _ => ret)) _ httptest.methods r
       httptest.NewRecorder world0).2 in
  valid_labels r
  /\ (exists st size, recorded world0 world' "/users/42" "GET" st size)
  /\ reqInFlight (metrics world') =
       gauge_Dec ("/users/42", "GET")%string (gauge_Inc ("/users/42", "GET")%string ∅).
Proof.
  intros r world'.
  assert (Hvalid : valid_labels r) by (split; reflexivity).
  split; [ exact Hvalid | ].
  exact (C1_route_label_is_request_uri _ httptest.methods (fun _ => ret) r
           httptest.NewRecorder world0 Hvalid).
Defined.

(** C1, the claim as stated, fails: [GET /users/42], matched by the route
    [/users/{id}], is not recorded under the path template. *)
Lemma C1_counterexample_matched_route :
  let r := get "/users/42" (Some "/users/{id}"%string) in
  let world' :=
    (middleware (HandlerFunc (fun _ => ret)) _ httptest.methods r
       httptest.NewRecorder world0).2 in
  spec_RouteLabel r = "/users/{id}"%string
  /\ ~ (exists st size, recorded world0 world' (spec_RouteLabel r) (http.Method r) st size)
  /\ reqInFlight (metrics world') !! (spec_RouteLabel r, http.Method r) = None
  /\ recorded world0 world' "/users/42" "GET" "0" 0.
Proof.
  intros r world'.
  assert (Hhist : reqDurationHistogram (metrics world') =
                  histogram_Observe ("/users/42"%string, "GET"%string, "0"%string) 0 ∅)
    by reflexivity.
  split; [ reflexivity | ]. split; [ | split ].
  - intros (st & size & Hd & _).
    rewrite Hhist in Hd.
    apply (f_equal (fun m => m !! ("/users/{id}"%string, "GET"%string, st))) in Hd.
    revert Hd. unfold histogram_Observe.
    rewrite lookup_insert_ne by (intros [= ?]).
    change (spec_RouteLabel r) with "/users/{id}"%string.
    change (http.Method r) with "GET"%string.
    rewrite lookup_insert_eq, lookup_empty. discriminate.
  - vm_compute. reflexivity.
  - split; reflexivity.
Qed.

(** C2, at its failing input.  A handler that calls [WriteHeader(404)] and
    then [WriteHeader(500)] is recorded under the status label "500": the
    second call overwrote the status the first had set, and nothing goes
    under "404".  (The request's URI and method are label values the
    collectors accept.) *)
Theorem C2_second_status_is_recorded :
  forall (S : Type) (under : http.ResponseWriter S) (r : http.Request) (s : S)
         (world : World),
    valid_labels r ->
    let uri := http.RequestURI (http.url r) in
    let verb := http.Method r in
    exists world',
      middleware (HandlerFunc (fun _ => set_statuses [404; 500])) S under r s world
        = (Returned, http.WriteHeader under 500 (http.WriteHeader under 404 s), world')
      /\ recorded world world' uri verb "500" 0
      /\ observations (reqDurationHistogram (metrics world')) (uri, verb, "404"%string) =
           observations (reqDurationHistogram (metrics world)) (uri, verb, "404"%string)
      /\ observations (reqRespSizeHistogram (metrics world')) (uri, verb, "404"%string) =
           observations (reqRespSizeHistogram (metrics world)) (uri, verb, "404"%string).
Proof.
  intros S under r s world Hvalid uri verb. subst uri verb.
  unfold middleware, HandlerFunc.
  rewrite exec_set_statuses. cbn iota beta zeta.
  eexists. split; [ reflexivity | ].
  assert (Hrec : recorded world
                   (reqInFlight_Dec (http.RequestURI (http.url r)) (http.Method r)
                      (reqRespSizeHistogram_Observe (http.RequestURI (http.url r))
                         (http.Method r) "500" 0
                         (reqDurationHistogram_Observe (http.RequestURI (http.url r))
                            (http.Method r) "500" 0
                            (reqInFlight_Inc (http.RequestURI (http.url r))
                               (http.Method r) world))))
                   (http.RequestURI (http.url r)) (http.Method r) "500" 0).
  { unfold recorded. simpl. replace (clock world - clock world) with 0 by lia.
    split; reflexivity. }
  cbn [List.last statusWriter.status statusWriter.length statusWriter.ResponseWriter].
  unfold Since, Now. cbn [clock reqInFlight_Inc with_metrics].
  replace (clock world - clock world) with 0 by lia.
  change (Sprintf_d 500) with "500"%string.
  split; [ exact Hrec | ].
  destruct Hrec as [-> ->].
  split; apply observations_Observe_ne; intros [= ?].
Qed.

(** The failing input on a recorder: the sink answered 404, the label says
    500. *)
Lemma C2_witness_404_then_500 :
  let res :=
    middleware (HandlerFunc (fun _ => set_statuses [404; 500])) _ httptest.methods
      (get "/a" None) httptest.NewRecorder world0 in
  valid_labels (get "/a" None)
  /\ httptest.Code res.1.2 = 404
  /\ exists world',
      res = (Returned, httptest.WriteHeader 500 (httptest.WriteHeader 404 httptest.NewRecorder),
             world')
      /\ recorded world0 world' "/a" "GET" "500" 0
      /\ observations (reqDurationHistogram (metrics world')) ("/a", "GET", "404")%string = [].
Proof.
  intros res.
  assert (Hvalid : valid_labels (get "/a" None)) by (split; reflexivity).
  split; [ exact Hvalid | ]. split; [ reflexivity | ].
  destruct (C2_second_status_is_recorded _ httptest.methods (get "/a" None)
              httptest.NewRecorder world0 Hvalid)
    as (world' & Hres & Hrec & Hd & _).
  exists world'. split; [ exact Hres | ]. split; [ exact Hrec | exact Hd ].
Defined.

(** C3, at its failing input.  A handler that panics leaves the middleware
    after the increment: the in-flight gauge of (route, method) stays one
    above its value and nothing decrements it. *)
Theorem C3_panic_leaves_gauge_incremented :
  forall (S : Type) (under : http.ResponseWriter S) (r : http.Request) (s : S)
         (world : World),
    let k := (http.RequestURI (http.url r), http.Method r) in
    let res := middleware (HandlerFunc (fun _ => panic)) S under r s world in
    res = (Panicked, s, reqInFlight_Inc k.1 k.2 world)
    /\ gauge_value (reqInFlight (metrics res.2)) k =
         gauge_value (reqInFlight (metrics world)) k + 1.
Proof.
  intros S under r s world k res. split; [ reflexivity | ].
  subst res. simpl. apply gauge_value_Inc_eq.
Qed.

(** C4.  A handler that writes body bytes through the observer and never
    sets a status is recorded under the status label "200"; the observer
    takes the status 200 in the [Write] call that finds none set, whatever
    the sink then returns, and hands the bytes to the sink. *)
Theorem C4_write_without_status_records_200 :
  forall (S : Type) (under : http.ResponseWriter S) (f : http.Request -> body)
         (r : http.Request) (s s' : S) (world world' : World),
    never_WriteHeader (f r) ->
    writes_body (f r) ->
    middleware (HandlerFunc f) S under r s world = (Returned, s', world') ->
    (exists size,
        recorded world world' (http.RequestURI (http.url r)) (http.Method r) "200" size)
    /\ (forall (b : bytes) (sw : statusWriter.t S),
          statusWriter.status sw = 0 ->
          statusWriter.status (statusWriter.Write under b sw).2 = 200
          /\ statusWriter.ResponseWriter (statusWriter.Write under b sw).2 =
               (http.Write under b (statusWriter.ResponseWriter sw)).2).
Proof.
  intros S under f r s s' world world' Hnever Hwrites Hres. split.
  - apply middleware_returned in Hres as (Hret & _ & Hrec & _).
    rewrite (exec_defaults_200 under (f r)) in Hrec by auto.
    eauto.
  - intros b sw Hst. unfold statusWriter.Write. rewrite Hst. simpl.
    destruct (http.Write under b (statusWriter.ResponseWriter sw)) as [[n err] s1].
    split; reflexivity.
Qed.

Lemma C4_witness_one_write :
  let f := fun _ : http.Request => w_Write [x68; x69] (fun _ _ => ret) in
  let r := get "/a" None in
  let res := middleware (HandlerFunc f) _ httptest.methods r httptest.NewRecorder world0 in
  never_WriteHeader (f r)
  /\ writes_body (f r)
  /\ exists size, recorded world0 res.2 "/a" "GET" "200" size.
Proof.
  intros f r res.
  assert (Hnever : never_WriteHeader (f r)) by (simpl; auto).
  assert (Hwrites : writes_body (f r)) by exact I.
  split; [ exact Hnever | ]. split; [ exact Hwrites | ].
  exact (proj1 (C4_write_without_status_records_200 _ httptest.methods f r
                  httptest.NewRecorder res.1.2 world0 res.2 Hnever Hwrites eq_refl)).
Defined.

(** C5.  Writes through the observer reach the sink as the same calls, in
    order, and return what the sink returned; the running total is the sum,
    in [int] arithmetic, of the counts the sink returned (not of the lengths
    asked for).  Two writes of 10 and 20 bytes that the sink takes in full
    are recorded as a response size of 30 (for a request whose URI and
    method are label values the collectors accept). *)
Theorem C5_writes_forwarded_and_counted :
  forall (S : Type) (under : http.ResponseWriter S) (s : S),
    (forall bs : list bytes,
        let through :=
          Write_all (statusWriter.methods under) bs
            {| statusWriter.ResponseWriter := s;
               statusWriter.status := 0; statusWriter.length := 0 |} in
        let direct := Write_all under bs s in
        through.1 = direct.1
        /\ statusWriter.ResponseWriter through.2 = direct.2
        /\ statusWriter.length through.2 = wrap_int (sum_written direct.1)
        /\ (- 2 ^ 63 <= sum_written direct.1 < 2 ^ 63 ->
            statusWriter.length through.2 = sum_written direct.1))
    /\ (forall (r : http.Request) (world : World) (b1 b2 : bytes) (s1 s2 : S),
          valid_labels r ->
          len b1 = 10 -> len b2 = 20 ->
          http.Write under b1 s = ((len b1, None), s1) ->
          http.Write under b2 s1 = ((len b2, None), s2) ->
          exists world',
            middleware (HandlerFunc (fun _ => write_each [b1; b2])) S under r s world
              = (Returned, s2, world')
            /\ recorded world world' (http.RequestURI (http.url r)) (http.Method r)
                 "200" 30).
Proof.
  intros S under s. split.
  - intros bs through direct. subst through direct.
    set (fresh := {| statusWriter.ResponseWriter := s;
                     statusWriter.status := 0; statusWriter.length := 0 |}).
    destruct (Write_all_observed under bs fresh) as (Hres & Hrw & Hlen).
    pose proof (Write_all_length_wrapped under bs fresh eq_refl) as Hwrapped.
    rewrite Hwrapped in Hlen. simpl in Hlen, Hrw, Hres.
    repeat split; auto.
    intros Hrange. rewrite Hlen. by apply wrap_int_small.
  - intros r world b1 b2 s1 s2 Hvalid H10 H20 Hw1 Hw2.
    unfold middleware, HandlerFunc, write_each. simpl.
    unfold statusWriter.Write. simpl. rewrite Hw1. simpl. rewrite Hw2. simpl.
    eexists. split; [ reflexivity | ].
    unfold recorded. simpl. rewrite H10, H20. split; reflexivity.
Qed.

Lemma C5_witness_10_then_20 :
  let b1 := repeat x61 10 in
  let b2 := repeat x62 20 in
  let s1 := (httptest.Write b1 httptest.NewRecorder).2 in
  let s2 := (httptest.Write b2 s1).2 in
  exists world',
    middleware (HandlerFunc (fun _ => write_each [b1; b2])) _ httptest.methods
      (get "/a" None) httptest.NewRecorder world0 = (Returned, s2, world')
    /\ recorded world0 world' "/a" "GET" "200" 30.
Proof.
  intros b1 b2 s1 s2.
  exact (proj2 (C5_writes_forwarded_and_counted _ httptest.methods httptest.NewRecorder)
           (get "/a" None) world0 b1 b2 s1 s2 (conj eq_refl eq_refl)
           eq_refl eq_refl eq_refl eq_refl).
Defined.

(** C6.  When the sink's write fails, the observer's [Write] returns the
    sink's count and error as they are, and has added that count to its
    running total. *)
Theorem C6_write_error_returned_and_counted :
  forall (S : Type) (under : http.ResponseWriter S) (b : bytes) (sw : statusWriter.t S)
         (n : Z) (e : error) (s' : S),
    http.Write under b (statusWriter.ResponseWriter sw) = ((n, Some e), s') ->
    (statusWriter.Write under b sw).1 = (n, Some e)
    /\ statusWriter.ResponseWriter (statusWriter.Write under b sw).2 = s'
    /\ statusWriter.length (statusWriter.Write under b sw).2 =
         wrap_int (statusWriter.length sw + n)
    /\ (- 2 ^ 63 <= statusWriter.length sw + n < 2 ^ 63 ->
        statusWriter.length (statusWriter.Write under b sw).2 = statusWriter.length sw + n).
Proof.
  intros S under b sw n e s' Hw. unfold statusWriter.Write.
  assert (Hrw : statusWriter.ResponseWriter
                  (if statusWriter.status sw =? 0
                   then {| statusWriter.ResponseWriter := statusWriter.ResponseWriter sw;
                           statusWriter.status := 200;
                           statusWriter.length := statusWriter.length sw |}
                   else sw) = statusWriter.ResponseWriter sw)
    by (destruct (statusWriter.status sw =? 0); reflexivity).
  assert (Hlen : statusWriter.length
                   (if statusWriter.status sw =? 0
                    then {| statusWriter.ResponseWriter := statusWriter.ResponseWriter sw;
                            statusWriter.status := 200;
                            statusWriter.length := statusWriter.length sw |}
                    else sw) = statusWriter.length sw)
    by (destruct (statusWriter.status sw =? 0); reflexivity).
  cbv zeta. rewrite Hrw, Hlen, Hw. simpl.
  repeat split. intros Hrange. by apply wrap_int_small.
Qed.

Lemma C6_witness_broken_pipe :
  let c := {| conn_writer.room := 3; conn_writer.sent := []; conn_writer.hijacked := false |} in
  let sw := {| statusWriter.ResponseWriter := c;
               statusWriter.status := 0; statusWriter.length := 7 |} in
  let b := [x61; x62; x63; x64; x65] in
  (statusWriter.Write conn_writer.methods b sw).1
    = (3, Some (errorString "write: broken pipe"))
  /\ statusWriter.length (statusWriter.Write conn_writer.methods b sw).2 = 10.
Proof.
  intros c sw b.
  destruct (C6_write_error_returned_and_counted _ conn_writer.methods b sw 3
              (errorString "write: broken pipe") (conn_writer.Write b c).2 eq_refl)
    as (Hres & _ & _ & Hlen).
  split; [ exact Hres | ].
  apply Hlen. simpl. lia.
Defined.

(** C7.  [Hijack] on the observer calls the sink's [Hijack] and returns its
    results as they are when the sink is an [http.Hijacker]; when it is
    not, it returns the error "not supported by the underlying writer" with
    no connection and leaves the sink alone, so a handler that asks the
    observer for the connection gets that error. *)
Theorem C7_Hijack_forwards_or_reports :
  forall (S : Type) (under : http.ResponseWriter S) (sw : statusWriter.t S),
    (forall writer_Hijack : S -> HijackResult * S,
        http.Hijacker under = Some writer_Hijack ->
        statusWriter.Hijack under sw =
          ((writer_Hijack (statusWriter.ResponseWriter sw)).1,
           {| statusWriter.ResponseWriter :=
                (writer_Hijack (statusWriter.ResponseWriter sw)).2;
              statusWriter.status := statusWriter.status sw;
              statusWriter.length := statusWriter.length sw |}))
    /\ (http.Hijacker under = None ->
        statusWriter.Hijack under sw =
          ((None, None, Some (errorString "not supported by the underlying writer")), sw)
        /\ forall (unsupported : body) (rest : HijackResult -> body) (world : World),
            exec (statusWriter.methods under) (w_Hijack unsupported rest) sw world =
              exec (statusWriter.methods under)
                (rest (None, None, Some (errorString "not supported by the underlying writer")))
                sw world).
Proof.
  intros S under sw. split.
  - intros writer_Hijack Hsome. unfold statusWriter.Hijack. rewrite Hsome.
    by destruct (writer_Hijack (statusWriter.ResponseWriter sw)).
  - intros Hnone.
    assert (Hhj : statusWriter.Hijack under sw =
                  ((None, None, Some (errorString "not supported by the underlying writer")),
                   sw))
      by (unfold statusWriter.Hijack; rewrite Hnone; reflexivity).
    split; [ exact Hhj | ].
    intros unsupported rest world. simpl. by rewrite Hhj.
Qed.

Lemma C7_witness_both_sinks :
  let c := {| conn_writer.room := 3; conn_writer.sent := []; conn_writer.hijacked := false |} in
  let over_conn := {| statusWriter.ResponseWriter := c;
                      statusWriter.status := 0; statusWriter.length := 0 |} in
  let over_recorder := {| statusWriter.ResponseWriter := httptest.NewRecorder;
                          statusWriter.status := 0; statusWriter.length := 0 |} in
  (statusWriter.Hijack conn_writer.methods over_conn).1
    = (Some (conn 3), Some (readWriter 3), None)
  /\ statusWriter.Hijack httptest.methods over_recorder
     = ((None, None, Some (errorString "not supported by the underlying writer")),
        over_recorder).
Proof.
  intros c over_conn over_recorder. split.
  - rewrite (proj1 (C7_Hijack_forwards_or_reports _ conn_writer.methods over_conn)
               conn_writer.Hijack eq_refl).
    reflexivity.
  - exact (proj1 (proj2 (C7_Hijack_forwards_or_reports _ httptest.methods over_recorder)
                    eq_refl)).
Defined.

(** C8.  When no option has set the router, [New] does not return an
    instance: it ends in [log.Fatal("You need to set Router")], after the
    collectors are registered, or in the panic of a registration. *)
Theorem C8_New_without_router_is_fatal :
  forall (options : list (MuxProm.t -> MuxProm.t)) (w : World),
    MuxProm.Router (fold_left (fun p option => option p) options MuxProm.defaults) = None ->
    (forall p w', MuxProm.New options w <> MuxProm.NewReturned p w')
    /\ ((exists w', MuxProm.New options w = MuxProm.NewFatal "You need to set Router" w')
        \/ (exists w', MuxProm.New options w = MuxProm.NewPanicked w'))
    /\ (forall w1,
          MuxProm.init (fold_left (fun p option => option p) options MuxProm.defaults) w
            = (Returned, w1) ->
          MuxProm.New options w = MuxProm.NewFatal "You need to set Router" w1).
Proof.
  intros options w Hnil. unfold MuxProm.New. cbv zeta.
  destruct (MuxProm.init _ w) as [[ | ] w1]; rewrite ?Hnil.
  - split; [ discriminate | ]. split; [ left; eauto | ].
    by intros ? [= <-].
  - split; [ discriminate | ]. split; [ right; eauto | ].
    discriminate.
Qed.

Lemma C8_witness_no_router_option :
  exists w',
    MuxProm.New [Namespace "shop"; MetricsPath "/health/metrics"] world0
      = MuxProm.NewFatal "You need to set Router" w'
    /\ registry w' = {[ "shop_http_requests_inflight"%string;
                        "shop_http_request_duration_seconds"%string;
                        "shop_http_response_size"%string ]}.
Proof.
  pose proof (C8_New_without_router_is_fatal
                [Namespace "shop"; MetricsPath "/health/metrics"] world0 eq_refl)
    as (_ & _ & Hfatal).
  eexists. split; [ apply Hfatal; vm_compute; reflexivity | ].
  vm_compute. reflexivity.
Defined.

(** C9.  [Instrument] puts the one [middleware] of the instance at the end
    of the router's middleware chain, and makes the not-found handler and
    the method-not-allowed handler that same [middleware] applied to the
    handler that was set, or to the default one ([http.NotFoundHandler()],
    a handler that sets status 405) when none was set; the routes are left
    as they are. *)
Theorem C9_Instrument_wraps_three_paths :
  forall (prom : MuxProm.t) (r : mux.Router),
    MuxProm.Router prom = Some r ->
    exists (prom' : MuxProm.t) (r' : mux.Router),
      MuxProm.Instrument prom = Some prom'
      /\ MuxProm.Router prom' = Some r'
      /\ mux.middlewares r' = mux.middlewares r ++ [middleware]
      /\ mux.NotFoundHandler r' =
           Some (middleware
                   (match mux.NotFoundHandler r with
                    | Some h => h
                    | None => http_NotFoundHandler
                    end))
      /\ mux.MethodNotAllowedHandler r' =
           Some (middleware
                   (match mux.MethodNotAllowedHandler r with
                    | Some h => h
                    | None =>
                        HandlerFunc (fun _ => w_WriteHeader http.StatusMethodNotAllowed ret)
                    end))
      /\ mux.routes r' = mux.routes r.
Proof.
  intros prom r Hr. unfold MuxProm.Instrument. rewrite Hr.
  eexists _, _. split; [ reflexivity | ]. simpl.
  split; [ reflexivity | ]. simpl.
  unfold WrapNotFoundHandler, WrapMethodNotAllowedHandler.
  repeat split; destruct r as [routes mws [nf | ] [mna | ]]; reflexivity.
Qed.

Lemma C9_witness_new_router :
  exists (prom' : MuxProm.t) (r' : mux.Router),
    MuxProm.Instrument (Router (Some mux.NewRouter) MuxProm.defaults) = Some prom'
    /\ MuxProm.Router prom' = Some r'
    /\ mux.middlewares r' = [middleware]
    /\ mux.NotFoundHandler r' = Some (middleware http_NotFoundHandler)
    /\ mux.MethodNotAllowedHandler r' =
         Some (middleware
                 (HandlerFunc (fun _ => w_WriteHeader http.StatusMethodNotAllowed ret))).
Proof.
  destruct (C9_Instrument_wraps_three_paths
              (Router (Some mux.NewRouter) MuxProm.defaults) mux.NewRouter eq_refl)
    as (prom' & r' & Hi & Hr & Hm & Hnf & Hmna & _).
  exists prom', r'. repeat split; assumption.
Defined.

(** C10.  A handler that returns without a [Write] and without a
    [WriteHeader] call is recorded, in both histograms, under the status
    label "0", the zero value of the observer's status field, with a size
    of 0; nothing is added under "200". *)
Theorem C10_silent_handler_records_status_0 :
  forall (S : Type) (under : http.ResponseWriter S) (f : http.Request -> body)
         (r : http.Request) (s s' : S) (world world' : World),
    never_WriteHeader (f r) ->
    never_Write (f r) ->
    middleware (HandlerFunc f) S under r s world = (Returned, s', world') ->
    let uri := http.RequestURI (http.url r) in
    let verb := http.Method r in
    recorded world world' uri verb "0" 0
    /\ observations (reqDurationHistogram (metrics world')) (uri, verb, "200"%string) =
         observations (reqDurationHistogram (metrics world)) (uri, verb, "200"%string)
    /\ observations (reqRespSizeHistogram (metrics world')) (uri, verb, "200"%string) =
         observations (reqRespSizeHistogram (metrics world)) (uri, verb, "200"%string).
Proof.
  intros S under f r s s' world world' Hnh Hnw Hres uri verb.
  apply middleware_returned in Hres as (_ & _ & Hrec & _).
  match type of Hrec with
  | context [exec ?w ?c ?sw ?wd] =>
      destruct (exec_untouched under c sw wd Hnh Hnw) as [Hst Hlen]
  end.
  rewrite Hst, Hlen in Hrec. simpl in Hrec.
  split; [ exact Hrec | ].
  destruct Hrec as [-> ->].
  split; apply observations_Observe_ne; intros [= ?].
Qed.

Lemma C10_witness_empty_handler :
  let f := fun _ : http.Request => elapse 5 ret in
  let r := get "/a" None in
  let world' :=
    (middleware (HandlerFunc f) _ httptest.methods r httptest.NewRecorder world0).2 in
  recorded world0 world' "/a" "GET" "0" 0
  /\ observations (reqDurationHistogram (metrics world')) ("/a", "GET", "0")%string = [5].
Proof.
  intros f r world'. split; [ | reflexivity ].
  exact (proj1 (C10_silent_handler_records_status_0 _ httptest.methods f r
                  httptest.NewRecorder httptest.NewRecorder world0 world' I I eq_refl)).
Defined.


(** * Further properties of the code *)

(** ** Handler bodies do not look at the collectors *)

Lemma exec_with_metrics {S : Type} (w : http.ResponseWriter S) (c : body) :
  forall (s : S) (m : Metrics) (world : World),
    exec w c s (with_metrics m world) =
      ((exec w c s world).1, with_metrics m (exec w c s world).2).
Proof.
  induction c as [ | | k v rest IH | st rest IH | b rest IH
                 | unsupported IHu rest IH | d rest IH ]; intros s m world; simpl; auto.
  - destruct (http.Write w b s) as [[n err] s']. apply IH.
  - destruct (http.Hijacker w) as [hijack | ]; [ | apply IHu ].
    destruct (hijack s) as [res s']. apply IH.
  - apply (IH s m (tick d world)).
Qed.

(** ** An observer around an observer *)

Section Transparency.
Context {S : Type} (under : http.ResponseWriter S).

Lemma Write_observed_twice (b : bytes) (s : S) (st n : Z) :
  statusWriter.Write (statusWriter.methods under) b
    {| statusWriter.ResponseWriter :=
         {| statusWriter.ResponseWriter := s;
            statusWriter.status := st; statusWriter.length := n |};
       statusWriter.status := st; statusWriter.length := n |}
  = ((statusWriter.Write under b
        {| statusWriter.ResponseWriter := s;
           statusWriter.status := st; statusWriter.length := n |}).1,
     {| statusWriter.ResponseWriter :=
          (statusWriter.Write under b
             {| statusWriter.ResponseWriter := s;
                statusWriter.status := st; statusWriter.length := n |}).2;
        statusWriter.status :=
          statusWriter.status
            (statusWriter.Write under b
               {| statusWriter.ResponseWriter := s;
                  statusWriter.status := st; statusWriter.length := n |}).2;
        statusWriter.length :=
          statusWriter.length
            (statusWriter.Write under b
               {| statusWriter.ResponseWriter := s;
                  statusWriter.status := st; statusWriter.length := n |}).2 |}).
Proof.
  destruct (st =? 0) eqn:Hst;
    unfold statusWriter.Write; cbn -[Z.eqb wrap_int]; rewrite ?Hst; cbn -[Z.eqb wrap_int];
    unfold statusWriter.Write; cbn -[Z.eqb wrap_int]; rewrite ?Hst; cbn -[Z.eqb wrap_int];
    destruct (http.Write under b s) as [[m err] s']; reflexivity.
Qed.

(** An observer around an observer holds the same status and length as the
    observer it wraps, whatever the body does. *)
Lemma exec_observed_twice (c : body) :
  forall (s : S) (st n : Z) (world : World),
    let one :=
      exec (statusWriter.methods under) c
        {| statusWriter.ResponseWriter := s;
           statusWriter.status := st; statusWriter.length := n |} world in
    exec (statusWriter.methods (statusWriter.methods under)) c
      {| statusWriter.ResponseWriter :=
           {| statusWriter.ResponseWriter := s;
              statusWriter.status := st; statusWriter.length := n |};
         statusWriter.status := st; statusWriter.length := n |} world
    = (one.1.1,
       {| statusWriter.ResponseWriter := one.1.2;
          statusWriter.status := statusWriter.status one.1.2;
          statusWriter.length := statusWriter.length one.1.2 |},
       one.2).
Proof.
  induction c as [ | | k v rest IH | st' rest IH | b rest IH
                 | unsupported IHu rest IH | d rest IH ];
    intros s st n world; cbv zeta; simpl.
  - reflexivity.
  - reflexivity.
  - apply (IH (http.SetHeader under k v s) st n world).
  - apply (IH (http.WriteHeader under st' s) st' n world).
  - rewrite Write_observed_twice.
    destruct (statusWriter.Write under b _) as [[m err] sw']. simpl.
    destruct sw' as [s' st' n']. apply IH.
  - unfold statusWriter.Hijack. simpl. unfold statusWriter.Hijack. simpl.
    destruct (http.Hijacker under) as [hijack | ]; simpl.
    + destruct (hijack s) as [res s']. simpl. apply IH.
    + apply IH.
  - apply IH.
Qed.

End Transparency.

(** Writes leave a status that is set alone. *)
Lemma Write_all_keeps_status {S : Type} (under : http.ResponseWriter S) (bs : list bytes) :
  forall sw : statusWriter.t S,
    statusWriter.status sw <> 0 ->
    statusWriter.status (Write_all (statusWriter.methods under) bs sw).2 =
      statusWriter.status sw.
Proof.
  induction bs as [ | b bs IH ]; intros sw Hst; simpl; [ reflexivity | ].
  unfold statusWriter.Write.
  destruct (Z.eqb_spec (statusWriter.status sw) 0) as [ | _ ]; [ contradiction | ].
  destruct (http.Write under b (statusWriter.ResponseWriter sw)) as [[n err] s'].
  match goal with |- context [Write_all _ bs ?x] => specialize (IH x Hst) end.
  destruct (Write_all _ bs _) as [rs sw']. exact IH.
Qed.

Lemma gauge_value_Dec_Inc_twice g k k' :
  gauge_value (gauge_Dec k (gauge_Dec k (gauge_Inc k (gauge_Inc k g)))) k' = gauge_value g k'.
Proof.
  destruct (decide (k = k')) as [<- | Hne].
  - rewrite !gauge_value_Dec_eq, !gauge_value_Inc_eq. lia.
  - by rewrite !gauge_value_Dec_ne, !gauge_value_Inc_ne.
Qed.

(** ** What the middleware adds to a handler, and what it leaves alone *)

(** X2.  When the handler returns, every child of the in-flight gauge is
    back at the value it had before the request. *)
Theorem X2_gauge_balanced_on_return :
  forall (S : Type) (under : http.ResponseWriter S) (f : http.Request -> body)
         (r : http.Request) (s s' : S) (world world' : World) (k : string * string),
    middleware (HandlerFunc f) S under r s world = (Returned, s', world') ->
    gauge_value (reqInFlight (metrics world')) k = gauge_value (reqInFlight (metrics world)) k.
Proof.
  intros S under f r s s' world world' k Hres.
  apply middleware_returned in Hres as (_ & _ & _ & ->).
  apply gauge_value_Dec_Inc.
Qed.

Lemma X2_witness_get :
  let f := fun _ : http.Request => w_WriteHeader 204 ret in
  let world' :=
    (middleware (HandlerFunc f) _ httptest.methods (get "/a" None)
       httptest.NewRecorder world0).2 in
  gauge_value (reqInFlight (metrics world')) ("/a", "GET")%string = 0.
Proof.
  intros f world'.
  exact (X2_gauge_balanced_on_return _ httptest.methods f (get "/a" None)
           httptest.NewRecorder
           (middleware (HandlerFunc f) _ httptest.methods (get "/a" None)
              httptest.NewRecorder world0).1.2
           world0 world' ("/a", "GET")%string eq_refl).
Defined.

(** X3.  When the middleware panics on a request whose URI and method are
    label values the collectors accept, so that the panic is the
    handler's, then whatever the handler did before, neither histogram gets
    an observation; the gauge child of the request is one above its value
    and the other children are as they were. *)
Theorem X3_panic_records_nothing :
  forall (S : Type) (under : http.ResponseWriter S) (f : http.Request -> body)
         (r : http.Request) (s s' : S) (world world' : World),
    valid_labels r ->
    middleware (HandlerFunc f) S under r s world = (Panicked, s', world') ->
    reqDurationHistogram (metrics world') = reqDurationHistogram (metrics world)
    /\ reqRespSizeHistogram (metrics world') = reqRespSizeHistogram (metrics world)
    /\ forall k : string * string,
        gauge_value (reqInFlight (metrics world')) k =
          gauge_value (reqInFlight (metrics world)) k
          + (if decide (k = (http.RequestURI (http.url r), http.Method r)) then 1 else 0).
Proof.
  intros S under f r s s' world world' Hvalid Hres.
  apply middleware_panicked in Hres as (_ & Hg & Hd & Hs).
  split; [ exact Hd | ]. split; [ exact Hs | ].
  intros k. rewrite Hg. destruct (decide _) as [-> | Hne].
  - apply gauge_value_Inc_eq.
  - rewrite gauge_value_Inc_ne by congruence. lia.
Qed.

Lemma X3_witness_panic_after_write :
  let f := fun _ : http.Request =>
             w_WriteHeader 200 (w_Write [x68; x69] (fun _ _ => panic)) in
  let world' :=
    (middleware (HandlerFunc f) _ httptest.methods (get "/a" None)
       httptest.NewRecorder world0).2 in
  reqDurationHistogram (metrics world') = ∅
  /\ reqRespSizeHistogram (metrics world') = ∅
  /\ gauge_value (reqInFlight (metrics world')) ("/a", "GET")%string = 1.
Proof.
  intros f world'.
  destruct (X3_panic_records_nothing _ httptest.methods f (get "/a" None)
              httptest.NewRecorder
              (middleware (HandlerFunc f) _ httptest.methods (get "/a" None)
                 httptest.NewRecorder world0).1.2
              world0 world' (conj eq_refl eq_refl) eq_refl)
    as (Hd & Hs & Hg).
  split; [ exact Hd | ]. split; [ exact Hs | ].
  rewrite (Hg ("/a", "GET")%string). reflexivity.
Defined.

(** X4.  Observations are only ever appended: after a request, however it
    ends, what a series of either histogram held before is a prefix of what
    it holds, and a series under other labels than the request's route and
    method is unchanged. *)
Theorem X4_histograms_append_only :
  forall (S : Type) (under : http.ResponseWriter S) (f : http.Request -> body)
         (r : http.Request) (s : S) (world : World) (k : string * string * string),
    let world' := (middleware (HandlerFunc f) S under r s world).2 in
    (observations (reqDurationHistogram (metrics world)) k
       `prefix_of` observations (reqDurationHistogram (metrics world')) k)
    /\ (observations (reqRespSizeHistogram (metrics world)) k
          `prefix_of` observations (reqRespSizeHistogram (metrics world')) k)
    /\ (k.1 <> (http.RequestURI (http.url r), http.Method r) ->
        observations (reqDurationHistogram (metrics world')) k =
          observations (reqDurationHistogram (metrics world)) k
        /\ observations (reqRespSizeHistogram (metrics world')) k =
             observations (reqRespSizeHistogram (metrics world)) k).
Proof.
  intros S under f r s world k world'. subst world'.
  destruct (middleware (HandlerFunc f) S under r s world) as [[e s'] world'] eqn:Hres.
  simpl. destruct e.
  - apply middleware_returned in Hres as (_ & _ & [-> ->] & _).
    set (st := Sprintf_d _). set (uri := http.RequestURI _). set (verb := http.Method r).
    destruct (decide ((uri, verb, st) = k)) as [<- | Hne].
    + rewrite !observations_Observe_eq.
      split; [ by apply prefix_app_r | ]. split; [ by apply prefix_app_r | ].
      intros Hk. simpl in Hk. congruence.
    + rewrite !observations_Observe_ne by exact Hne. auto.
  - apply middleware_panicked in Hres as (_ & _ & -> & ->). auto.
Qed.

(** X5.  The middleware applied twice to a handler counts each request
    twice: the inner and the outer observer end with the same status and
    length, so when the handler returns each histogram has two observations
    more, both under the labels the single middleware records; the two
    sizes are the size it records, and the gauge is balanced.  (Nothing is
    said of the two durations but that they are observed.) *)
Theorem X5_middleware_twice_records_twice :
  forall (S : Type) (under : http.ResponseWriter S) (f : http.Request -> body)
         (r : http.Request) (s s' : S) (world world1 : World),
    valid_labels r ->
    middleware (HandlerFunc f) S under r s world = (Returned, s', world1) ->
    exists (st : string) (size d1 d2 : Z) (world2 : World),
      let k := (http.RequestURI (http.url r), http.Method r, st) in
      recorded world world1 (http.RequestURI (http.url r)) (http.Method r) st size
      /\ middleware (middleware (HandlerFunc f)) S under r s world = (Returned, s', world2)
      /\ reqDurationHistogram (metrics world2) =
           histogram_Observe k d2
             (histogram_Observe k d1 (reqDurationHistogram (metrics world)))
      /\ reqRespSizeHistogram (metrics world2) =
           histogram_Observe k size
             (histogram_Observe k size (reqRespSizeHistogram (metrics world)))
      /\ forall g, gauge_value (reqInFlight (metrics world2)) g =
                   gauge_value (reqInFlight (metrics world)) g.
Proof.
  intros S under f r s s' world world1 Hvalid.
  unfold middleware at 1 2. unfold middleware at 1. unfold HandlerFunc.
  unfold reqInFlight_Inc.
  rewrite (exec_observed_twice under (f r) s 0 0).
  rewrite !(exec_with_metrics (statusWriter.methods under)).
  remember (exec (statusWriter.methods under) (f r) _ world) as one eqn:Hrun.
  destruct one as [[e sw] w1]. cbn [fst snd].
  destruct e; [ | discriminate ].
  intros [= <- <-].
  exists (Sprintf_d (statusWriter.status sw)), (statusWriter.length sw).
  eexists _, _, _. cbv zeta.
  split; [ split; reflexivity | ].
  split; [ reflexivity | ].
  split; [ reflexivity | ]. split; [ reflexivity | ].
  intros g. apply gauge_value_Dec_Inc_twice.
Qed.

Lemma X5_witness_not_found_twice :
  let f := fun _ : http.Request => elapse 3 (w_WriteHeader 404 ret) in
  exists (st : string) (size d1 d2 : Z) (world2 : World),
    middleware (middleware (HandlerFunc f)) _ httptest.methods (get "/nope" None)
      httptest.NewRecorder world0
      = (Returned, httptest.WriteHeader 404 httptest.NewRecorder, world2)
    /\ reqDurationHistogram (metrics world2) =
         histogram_Observe ("/nope", "GET", st)%string d2
           (histogram_Observe ("/nope", "GET", st)%string d1 ∅)
    /\ reqRespSizeHistogram (metrics world2) =
         histogram_Observe ("/nope", "GET", st)%string size
           (histogram_Observe ("/nope", "GET", st)%string size ∅).
Proof.
  intros f.
  destruct (X5_middleware_twice_records_twice _ httptest.methods f (get "/nope" None)
              httptest.NewRecorder (httptest.WriteHeader 404 httptest.NewRecorder) world0
              (middleware (HandlerFunc f) _ httptest.methods (get "/nope" None)
                 httptest.NewRecorder world0).2
              (conj eq_refl eq_refl) eq_refl)
    as (st & size & d1 & d2 & world2 & _ & Hrun & Hd & Hs & _).
  exists st, size, d1, d2, world2. split; [ exact Hrun | ]. split; [ exact Hd | exact Hs ].
Defined.

(** ** Status and size of common handlers *)

(** X6.  A handler that sets a status a response may carry (100 to 999) and
    then writes its body, in any number of writes, is recorded under that
    status, with the sum of the counts the sink returned as size; the sink
    sees the status call and the writes as without the middleware.  (The
    request's URI and method are label values the collectors accept.) *)
Theorem X6_status_then_body :
  forall (S : Type) (under : http.ResponseWriter S) (r : http.Request) (s : S)
         (world : World) (st : Z) (bs : list bytes),
    valid_labels r ->
    100 <= st <= 999 ->
    let direct := Write_all under bs (http.WriteHeader under st s) in
    exists world',
      middleware (HandlerFunc (fun _ => w_WriteHeader st (write_each bs))) S under r s world
        = (Returned, direct.2, world')
      /\ recorded world world' (http.RequestURI (http.url r)) (http.Method r)
           (Sprintf_d st) (wrap_int (sum_written direct.1)).
Proof.
  intros S under r s world st bs Hvalid Hrange direct. subst direct.
  assert (Hst : st <> 0) by lia.
  set (sw := {| statusWriter.ResponseWriter := http.WriteHeader under st s;
                statusWriter.status := st; statusWriter.length := 0 |}).
  assert (Hexec : forall w,
             exec (statusWriter.methods under) (w_WriteHeader st (write_each bs))
               {| statusWriter.ResponseWriter := s;
                  statusWriter.status := 0; statusWriter.length := 0 |} w
             = (Returned, (Write_all (statusWriter.methods under) bs sw).2, w))
    by (intros w; cbn [exec]; rewrite exec_write_each; reflexivity).
  unfold middleware, HandlerFunc. rewrite Hexec.
  pose proof (Write_all_keeps_status under bs sw Hst) as Hkeep.
  destruct (Write_all_observed under bs sw) as (_ & Hrw & Hlen).
  pose proof (Write_all_length_wrapped under bs sw eq_refl) as Hwrapped.
  rewrite Hwrapped in Hlen.
  change (statusWriter.ResponseWriter sw) with (http.WriteHeader under st s) in Hrw, Hlen.
  change (statusWriter.status sw) with st in Hkeep.
  change (statusWriter.length sw) with 0 in Hlen.
  cbn iota beta zeta. rewrite Hrw.
  eexists. split; [ reflexivity | ].
  unfold recorded. cbn. rewrite Hkeep, Hlen. unfold Since, Now. cbn.
  split; reflexivity.
Qed.

Lemma X6_witness_created :
  exists world',
    middleware (HandlerFunc (fun _ => w_WriteHeader 201 (write_each [[x6f; x6b]; [x0a]])))
      _ httptest.methods (get "/items" None) httptest.NewRecorder world0
      = (Returned,
         {| httptest.Code := 201; httptest.HeaderMap := [];
            httptest.Body := [x6f; x6b; x0a]; httptest.wroteHeader := true |},
         world')
    /\ recorded world0 world' "/items" "GET" "201" 3.
Proof.
  assert (Hst : 100 <= 201 <= 999) by lia.
  exact (X6_status_then_body _ httptest.methods (get "/items" None) httptest.NewRecorder
           world0 201 [[x6f; x6b]; [x0a]] (conj eq_refl eq_refl) Hst).
Defined.

(** X8.  The method-not-allowed handler [WrapMethodNotAllowedHandler] builds
    when none is set answers 405 and is recorded under the status label
    "405" with size 0, for a request whose URI and method are label values
    the collectors accept. *)
Theorem X8_default_method_not_allowed_records_405 :
  forall (S : Type) (under : http.ResponseWriter S) (r : http.Request) (s : S)
         (world : World),
    valid_labels r ->
    exists world',
      WrapMethodNotAllowedHandler None middleware S under r s world
        = (Returned, http.WriteHeader under 405 s, world')
      /\ recorded world world' (http.RequestURI (http.url r)) (http.Method r) "405" 0.
Proof.
  intros S under r s world Hvalid.
  unfold WrapMethodNotAllowedHandler, middleware, HandlerFunc. cbn.
  eexists. split; [ reflexivity | ].
  unfold recorded. cbn. unfold Since, Now. cbn. split; reflexivity.
Qed.

Lemma X8_witness_post_to_get_route :
  let r := {| http.Method := "POST"; http.url := {| http.RequestURI := "/a" |};
              http.CurrentRoute := None |} in
  exists world',
    WrapMethodNotAllowedHandler None middleware _ httptest.methods r
      httptest.NewRecorder world0
      = (Returned, httptest.WriteHeader 405 httptest.NewRecorder, world')
    /\ recorded world0 world' "/a" "POST" "405" 0.
Proof.
  intros r.
  exact (X8_default_method_not_allowed_records_405 _ httptest.methods r
           httptest.NewRecorder world0 (conj eq_refl eq_refl)).
Defined.

(** X9.  The not-found handler [WrapNotFoundHandler] takes when none is set,
    [http.NotFoundHandler()], is recorded under the status label "404",
    with the count the sink returned for the body "404 page not found" and
    its newline as size, for a request whose URI and method are label
    values the collectors accept.  The headers the handler sets before
    status and body do not enter: [s0] is the sink after them. *)
Theorem X9_default_not_found_records_404 :
  forall (S : Type) (under : http.ResponseWriter S) (r : http.Request) (s : S)
         (world : World),
    valid_labels r ->
    let page := String.list_byte_of_string ("404 page not found" ++ String "010"%char "") in
    exists (s0 : S) (world' : World),
      let written := http.Write under page (http.WriteHeader under 404 s0) in
      WrapNotFoundHandler None middleware S under r s world = (Returned, written.2, world')
      /\ recorded world world' (http.RequestURI (http.url r)) (http.Method r)
           "404" (wrap_int written.1.1).
Proof.
  intros S under r s world Hvalid page. subst page.
  unfold WrapNotFoundHandler, middleware, http_NotFoundHandler, HandlerFunc.
  cbn [exec http.SetHeader http.WriteHeader http.Write statusWriter.methods].
  unfold statusWriter.Write, statusWriter.WriteHeader, statusWriter.SetHeader.
  cbn -[wrap_int String.list_byte_of_string String.append].
  exists (http.SetHeader under "X-Content-Type-Options" "nosniff"
            (http.SetHeader under "Content-Type" "text/plain; charset=utf-8" s)).
  destruct (http.Write under _ _) as [[n err] s1].
  cbn -[wrap_int].
  eexists. split; [ reflexivity | ].
  unfold recorded. cbn -[wrap_int]. unfold Since, Now. cbn -[wrap_int].
  split; reflexivity.
Qed.

Lemma X9_witness_unknown_path :
  let res :=
    WrapNotFoundHandler None middleware _ httptest.methods (get "/nope" None)
      httptest.NewRecorder world0 in
  res.1.1 = Returned
  /\ httptest.Code res.1.2 = 404
  /\ recorded world0 res.2 "/nope" "GET" "404" 19.
Proof.
  intros res.
  destruct (X9_default_not_found_records_404 _ httptest.methods (get "/nope" None)
              httptest.NewRecorder world0 (conj eq_refl eq_refl))
    as (s0 & world' & Hres & Hrec).
  split; [ reflexivity | ]. split; [ reflexivity | ].
  replace res.2 with world' by (subst res; rewrite Hres; reflexivity).
  exact Hrec.
Defined.

(** ** Construction and instrumentation *)

(** After an [init] that returned, the gauge's name is registered. *)
Lemma init_registers_gauge (prom : MuxProm.t) (w w' : World) :
  MuxProm.init prom w = (Returned, w') ->
  BuildFQName (MuxProm.Namespace prom) "http_requests_inflight" ∈ registry w'.
Proof.
  unfold MuxProm.init, MustRegister. cbn.
  destruct (decide _) as [ | _ ]; [ discriminate | ]. cbn.
  destruct (decide _) as [ | _ ]; [ discriminate | ]. cbn.
  destruct (decide _) as [ | _ ]; [ discriminate | ].
  intros [= <-]. cbn. set_solver.
Qed.

(** X11.  Once [New] has returned an instance, a second [New] whose options
    give the same namespace panics in the registration of its first
    collector, whatever else the options set. *)
Theorem X11_second_New_same_namespace_panics :
  forall (options1 options2 : list (MuxProm.t -> MuxProm.t)) (w w' : World)
         (p : MuxProm.t),
    MuxProm.New options1 w = MuxProm.NewReturned p w' ->
    MuxProm.Namespace (fold_left (fun p option => option p) options2 MuxProm.defaults) =
      MuxProm.Namespace (fold_left (fun p option => option p) options1 MuxProm.defaults) ->
    exists w'', MuxProm.New options2 w' = MuxProm.NewPanicked w''.
Proof.
  intros options1 options2 w w' p Hnew Hns.
  assert (Hreg : BuildFQName
                   (MuxProm.Namespace
                      (fold_left (fun p option => option p) options1 MuxProm.defaults))
                   "http_requests_inflight" ∈ registry w').
  { revert Hnew. unfold MuxProm.New. cbv zeta.
    destruct (MuxProm.init _ w) as [[ | ] w1] eqn:Hinit; [ | discriminate ].
    destruct (MuxProm.Router _); [ | discriminate ].
    intros [= _ <-]. by apply init_registers_gauge in Hinit. }
  unfold MuxProm.New. cbv zeta. unfold MuxProm.init, MustRegister. cbn.
  rewrite Hns. destruct (decide _) as [_ | Hout]; [ eauto | contradiction ].
Qed.

Lemma X11_witness_two_routers :
  exists w' w'',
    MuxProm.New [Router (Some mux.NewRouter)] world0
      = MuxProm.NewReturned
          (MuxProm.with_Router
             (Some (mux.Handle "metrics" ["GET"%string] "/metrics" mux.promhttp_Handler
                      mux.NewRouter))
             MuxProm.defaults) w'
    /\ MuxProm.New [MetricsPath "/m2"; Router (Some mux.NewRouter)] w'
       = MuxProm.NewPanicked w''.
Proof.
  eexists.
  destruct (X11_second_New_same_namespace_panics
              [Router (Some mux.NewRouter)]
              [MetricsPath "/m2"; Router (Some mux.NewRouter)]
              world0 _ _ eq_refl eq_refl)
    as (w'' & Hpanic).
  exists w''. split; [ reflexivity | exact Hpanic ].
Defined.

(** X12.  An instance [New] returned can be instrumented: [Instrument] does
    not hit a nil router, and afterwards the router serves the metrics route
    [New] added, has [middleware] at the end of its chain and both fallback
    handlers wrapped; the configuration is untouched. *)
Theorem X12_New_then_Instrument :
  forall (options : list (MuxProm.t -> MuxProm.t)) (w w' : World) (p : MuxProm.t),
    MuxProm.New options w = MuxProm.NewReturned p w' ->
    exists (r0 r' : mux.Router) (p' : MuxProm.t),
      MuxProm.Router (fold_left (fun p option => option p) options MuxProm.defaults)
        = Some r0
      /\ MuxProm.Instrument p = Some p'
      /\ p' = MuxProm.with_Router (Some r') p
      /\ mux.routes r' =
           mux.routes r0 ++
             [{| mux.name := MuxProm.MetricsRouteName p; mux.methods := ["GET"%string];
                 mux.path := MuxProm.MetricsPath p;
                 mux.handler := mux.promhttp_Handler |}]
      /\ mux.middlewares r' = mux.middlewares r0 ++ [middleware]
      /\ mux.NotFoundHandler r' =
           Some (WrapNotFoundHandler (mux.NotFoundHandler r0) middleware)
      /\ mux.MethodNotAllowedHandler r' =
           Some (WrapMethodNotAllowedHandler (mux.MethodNotAllowedHandler r0) middleware).
Proof.
  intros options w w' p. unfold MuxProm.New. cbv zeta.
  destruct (MuxProm.init _ w) as [[ | ] w1]; [ | discriminate ].
  destruct (MuxProm.Router _) as [r0 | ] eqn:Hr; [ | discriminate ].
  intros [= <- <-]. exists r0. eexists _, _.
  split; [ reflexivity | ]. split; [ reflexivity | ].
  repeat split; reflexivity.
Qed.

Lemma X12_witness_readme_main :
  exists (r' : mux.Router) (p p' : MuxProm.t) (w' : World),
    MuxProm.New [Router (Some mux.NewRouter)] world0 = MuxProm.NewReturned p w'
    /\ MuxProm.Instrument p = Some p'
    /\ MuxProm.Router p' = Some r'
    /\ mux.routes r' =
         [{| mux.name := "metrics"; mux.methods := ["GET"%string];
             mux.path := "/metrics"; mux.handler := mux.promhttp_Handler |}]
    /\ mux.middlewares r' = [middleware].
Proof.
  destruct (X12_New_then_Instrument [Router (Some mux.NewRouter)] world0
              {| registry :=
                   {[ "muxprom_http_response_size"%string ]}
                     ∪ ({[ "muxprom_http_request_duration_seconds"%string ]}
                          ∪ ({[ "muxprom_http_requests_inflight"%string ]} ∪ ∅));
                 metrics := no_metrics; clock := 0 |}
              (MuxProm.with_Router
                 (Some (mux.Handle "metrics" ["GET"%string] "/metrics" mux.promhttp_Handler
                          mux.NewRouter))
                 MuxProm.defaults)
              eq_refl)
    as (r0 & r' & p' & Hr0 & Hi & Hp' & Hroutes & Hmw & _ & _).
  injection Hr0 as <-.
  exists r'. eexists _, p', _.
  split; [ reflexivity | ]. split; [ exact Hi | ].
  split; [ by rewrite Hp' | ]. split; [ exact Hroutes | exact Hmw ].
Defined.

(** X13.  [Instrument] is not idempotent: called twice it puts [middleware]
    on the chain twice and wraps each fallback handler twice, so with X5 a
    request served by a fallback handler is then counted twice. *)
Theorem X13_Instrument_twice_wraps_twice :
  forall (prom : MuxProm.t) (r : mux.Router),
    MuxProm.Router prom = Some r ->
    exists (p1 p2 : MuxProm.t) (r2 : mux.Router),
      MuxProm.Instrument prom = Some p1
      /\ MuxProm.Instrument p1 = Some p2
      /\ MuxProm.Router p2 = Some r2
      /\ mux.middlewares r2 = mux.middlewares r ++ [middleware; middleware]
      /\ mux.NotFoundHandler r2 =
           Some (middleware (middleware
                   (match mux.NotFoundHandler r with
                    | Some h => h
                    | None => http_NotFoundHandler
                    end)))
      /\ mux.MethodNotAllowedHandler r2 =
           Some (middleware (middleware
                   (match mux.MethodNotAllowedHandler r with
                    | Some h => h
                    | None =>
                        HandlerFunc (fun _ => w_WriteHeader http.StatusMethodNotAllowed ret)
                    end))).
Proof.
  intros prom r Hr. unfold MuxProm.Instrument at 1. rewrite Hr.
  eexists _, _, _. split; [ reflexivity | ].
  split; [ reflexivity | ]. split; [ reflexivity | ]. cbn.
  split; [ by rewrite <- app_assoc | ].
  unfold WrapNotFoundHandler, WrapMethodNotAllowedHandler.
  split; destruct r as [routes mws [nf | ] [mna | ]]; reflexivity.
Qed.

Lemma X13_witness_new_router :
  exists (p1 p2 : MuxProm.t) (r2 : mux.Router),
    MuxProm.Instrument (Router (Some mux.NewRouter) MuxProm.defaults) = Some p1
    /\ MuxProm.Instrument p1 = Some p2
    /\ MuxProm.Router p2 = Some r2
    /\ mux.middlewares r2 = [middleware; middleware]
    /\ mux.NotFoundHandler r2 = Some (middleware (middleware http_NotFoundHandler)).
Proof.
  destruct (X13_Instrument_twice_wraps_twice
              (Router (Some mux.NewRouter) MuxProm.defaults) mux.NewRouter eq_refl)
    as (p1 & p2 & r2 & H1 & H2 & Hr & Hm & Hnf & _).
  exists p1, p2, r2. repeat split; assumption.
Defined.
